(** * Askage persistence layer: [backend/utils/db_handler.py]

    A shallow embedding of [MongoHandler] and of the part of the store it
    talks to (documents, collections, [find_one], [update_one],
    [insert_one], [ObjectId]), followed by the properties of the
    operations. *)

From Stdlib Require Import Strings.String Strings.Ascii Strings.Byte.
From Stdlib Require Import Lists.List Bool.Bool NArith.NArith Arith.Arith Lia.
From stdpp Require Import base decidable option list strings gmap.

Import ListNotations.
Local Open Scope string_scope.
Local Open Scope list_scope.

(** ** Object identifiers

    The ids the store issues are twelve bytes ([oid]); [str(oid)] prints
    them as 24 lower-case hexadecimal digits.  [ObjectId(s)] checks that
    [s] has 24 characters and keeps [bytes.fromhex(s)] as the id's
    binary, raising [InvalidId] when either fails.  [bytes.fromhex]
    skips ASCII whitespace in front of a pair of digits, so a string of
    24 characters that holds whitespace is taken too, and gives an id
    whose binary ([object_id]) is shorter than twelve bytes. *)

Module Hex.

Definition digit (n : N) : ascii :=
  match n with
  | 0%N => "0" | 1%N => "1" | 2%N => "2" | 3%N => "3"
  | 4%N => "4" | 5%N => "5" | 6%N => "6" | 7%N => "7"
  | 8%N => "8" | 9%N => "9" | 10%N => "a" | 11%N => "b"
  | 12%N => "c" | 13%N => "d" | 14%N => "e" | _ => "f"
  end%char.

Definition value (c : ascii) : option N :=
  let n := N_of_ascii c in
  if ((48 <=? n) && (n <=? 57))%N then Some (n - 48)%N
  else if ((97 <=? n) && (n <=? 102))%N then Some (n - 87)%N
  else if ((65 <=? n) && (n <=? 70))%N then Some (n - 55)%N
  else None.

(** [bytes.hex()] *)
Fixpoint hex (l : list byte) : string :=
  match l with
  | [] => EmptyString
  | b :: l' =>
      let n := Byte.to_N b in
      String (digit (n / 16)) (String (digit (n mod 16)) (hex l'))
  end.

(** ASCII whitespace: tab, line feed, vertical tab, form feed, carriage
    return and space. *)
Definition is_space (c : ascii) : bool :=
  let n := N_of_ascii c in
  ((9 <=? n) && (n <=? 13))%N || (n =? 32)%N.

(** [bytes.fromhex(s)], [None] standing for its [ValueError]: whitespace
    is skipped in front of each pair of digits, not inside a pair. *)
Fixpoint fromhex (s : string) : option (list byte) :=
  match s with
  | EmptyString => Some []
  | String c1 rest =>
      if is_space c1 then fromhex rest
      else
        match rest with
        | EmptyString => None
        | String c2 rest' =>
            match value c1, value c2 with
            | Some hi, Some lo =>
                match Byte.of_N (16 * hi + lo), fromhex rest' with
                | Some b, Some l => Some (b :: l)
                | _, _ => None
                end
            | _, _ => None
            end
        end
  end.

End Hex.

Definition oid : Type :=
  byte * byte * byte * byte * byte * byte * byte * byte * byte * byte * byte * byte.

(** The binary of an [ObjectId] instance. *)
Definition object_id : Type := list byte.

Definition oid_bytes (o : oid) : object_id :=
  let '(b0, b1, b2, b3, b4, b5, b6, b7, b8, b9, b10, b11) := o in
  [b0; b1; b2; b3; b4; b5; b6; b7; b8; b9; b10; b11].

(** [str(oid)] *)
Definition str_oid (o : oid) : string := Hex.hex (oid_bytes o).

#[global] Instance byte_eq_dec : EqDecision byte := Byte.byte_eq_dec.

#[global] Instance object_id_eq_dec : EqDecision object_id := list_eq_dec.

(** An id of the store used where an [ObjectId] instance is expected. *)
Coercion oid_bytes : oid >-> object_id.

(** ** Exceptions and results *)

Inductive exn : Type :=
| InvalidId (s : string)                 (* bson.errors.InvalidId, from ObjectId(s) *)
| NoneNotSubscriptable                   (* TypeError: subscripting None *)
| KeyError (k : string)                  (* subscripting a document lacking k *)
| DuplicateKeyError (o : oid)            (* insert_one with an _id already stored *)
| BareException                          (* raise Exception *)
| Exception (prefix : string) (e : exn). (* raise Exception(f"{prefix}{e}") *)

Inductive result (A : Type) : Type :=
| Ok (a : A)
| Raise (e : exn).
Arguments Ok {A} & a.
Arguments Raise {A} e.

(** [try: body except Exception as e: raise Exception(f"{prefix}{e}")] *)
Definition try_except {A} (prefix : string) (body : result A) : result A :=
  match body with
  | Ok a => Ok a
  | Raise e => Raise (Exception prefix e)
  end.

(** [ObjectId(s)] for a string argument. *)
Definition ObjectId (s : string) : result object_id :=
  if (String.length s =? 24)%nat
  then match Hex.fromhex s with
       | Some binary => Ok binary
       | None => Raise (InvalidId s)
       end
  else Raise (InvalidId s).

(** The text of a twelve-byte id: 24 characters, each a hexadecimal
    digit (either case). *)
Definition is_hex_digit (c : ascii) : bool :=
  existsb (Ascii.eqb c) (list_ascii_of_string "0123456789abcdefABCDEF").

Definition well_formed_id (s : string) : bool :=
  (String.length s =? 24)%nat && forallb is_hex_digit (list_ascii_of_string s).

(** Some character is neither a hexadecimal digit nor whitespace. *)
Definition has_foreign_char (s : string) : bool :=
  existsb (fun c => negb (is_hex_digit c || Hex.is_space c)) (list_ascii_of_string s).

(** ** Documents and collections *)

Record message : Type := { role : string; content : string }.

Inductive value : Type :=
| VStr (s : string)
| VOid (o : object_id)
| VStrs (l : list string)
| VMsgs (l : list message).

#[global] Instance message_eq_dec : EqDecision message.
Proof. solve_decision. Defined.

#[global] Instance value_eq_dec : EqDecision value.
Proof. solve_decision. Defined.

(** A stored document: the store gives every document an [_id]; the other
    fields are a dictionary keyed by field name. *)
Record document : Type := { _id : oid; fields : gmap string value }.

#[global] Instance document_eq_dec : EqDecision document.
Proof. solve_decision. Defined.

Definition collection : Type := list document.

(** [doc[k]] / [doc.get(k)] *)
Definition doc_get (d : document) (k : string) : option value :=
  if decide (k = "_id") then Some (VOid (_id d)) else fields d !! k.

(** Equality condition of a query on one field: the stored value equals
    the queried one, or is an array that contains it. *)
Definition value_matches (stored queried : value) : bool :=
  match stored, queried with
  | VStrs l, VStr s => bool_decide (s ∈ l)
  | _, _ => bool_decide (stored = queried)
  end.

(** A query [{k1: v1, ..., kn: vn}] selects the documents meeting every
    condition. *)
Definition matches (q : list (string * value)) (d : document) : bool :=
  forallb (fun kv => match doc_get d (fst kv) with
                     | Some v => value_matches v (snd kv)
                     | None => false
                     end) q.

(** [collection.find_one(q)]: the first match in natural order. *)
Definition find_one (q : list (string * value)) (c : collection) : option document :=
  List.find (matches q) c.

(** [{"$set": upd}] applied to one document. *)
Definition apply_set (upd : list (string * value)) (d : document) : document :=
  {| _id := _id d;
     fields := fold_left (fun m kv => <[fst kv := snd kv]> m) upd (fields d) |}.

(** [collection.update_one(q, {"$set": upd})]: updates the first match;
    the first component is [matched_count]. *)
Fixpoint update_one (q upd : list (string * value)) (c : collection)
  : nat * collection :=
  match c with
  | [] => (0, [])
  | d :: c' =>
      if matches q d then (1, apply_set upd d :: c')
      else let r := update_one q upd c' in (fst r, d :: snd r)
  end.

(** [collection.insert_one(doc)]: [fresh] is the [ObjectId] the driver
    generates for the new document; the store refuses an [_id] it
    already holds. *)
Definition insert_one (fresh : oid) (flds : gmap string value) (c : collection)
  : result oid * collection :=
  if existsb (fun d => bool_decide (_id d = fresh)) c
  then (Raise (DuplicateKeyError fresh), c)
  else (Ok fresh, c ++ [{| _id := fresh; fields := flds |}]).

#[global] Instance result_ret : MRet result := fun A a => Ok a.
#[global] Instance result_bind : MBind result := fun A B f m =>
  match m with
  | Ok a => f a
  | Raise e => Raise e
  end.

(** [r[k]] where [r] is what [find_one] returned. *)
Definition subscript (r : option document) (k : string) : result value :=
  match r with
  | None => Raise NoneNotSubscriptable
  | Some d =>
      match doc_get d k with
      | Some v => Ok v
      | None => Raise (KeyError k)
      end
  end.

(** The database [askage] with its two collections. *)
Record database : Type := { users : collection; conversations : collection }.

Definition empty_db : database := {| users := []; conversations := [] |}.

Definition system_content : string :=
  "You are Askage, a Chrome extension that answers user questions based on webpage content. Always be polite, but reply with only the necessary information. Use minimal words, avoid complete sentences unless required. No explanations unless asked. Use plain text, no markdown or formatting. Paragraph form only. No bullet points, no lists.".

Definition system_message : message :=
  {| role := "system"; content := system_content |}.

(** ** The handler's methods

    A method that writes returns its result together with the database it
    leaves behind; a method that only reads returns its result.  The two
    values the code obtains from outside are arguments: [entropy], the
    bytes [secrets.token_hex(16)] draws, and [fresh], the [ObjectId]
    generated for an inserted document. *)

Module MongoHandler.

(** [secrets.token_hex(16)]: the hexadecimal text of 16 random bytes. *)
Definition generate_session_token (entropy : list byte) : string :=
  Hex.hex entropy.

Definition register_google_user (entropy : list byte) (fresh : oid)
    (google_sub email : string) (db : database) : result string * database :=
  if bool_decide (google_sub = "") || bool_decide (email = "")
  then (Raise BareException, db)
  else
    let collection := users db in
    let session_token := generate_session_token entropy in
    match find_one [("google_sub", VStr google_sub)] collection with
    | Some existing_user =>
        let r := update_one [("_id", VOid (_id existing_user))]
                   [("session_token", VStr session_token); ("email", VStr email)]
                   collection in
        (Ok (str_oid (_id existing_user) +:+ ":" +:+ session_token),
         {| users := snd r; conversations := conversations db |})
    | None =>
        let r := insert_one fresh
                   (<["google_sub" := VStr google_sub]>
                      (<["session_token" := VStr session_token]>
                         (<["email" := VStr email]> ∅)))
                   collection in
        (inserted_id ← fst r; Ok (str_oid inserted_id +:+ ":" +:+ session_token),
         {| users := snd r; conversations := conversations db |})
    end.

Definition new_conversation (fresh : oid) (user_id : string)
    (suggestions : list string) (db : database) : result string * database :=
  let r := insert_one fresh
             (<["user_id" := VStr user_id]>
                (<["history" := VMsgs [system_message]]>
                   (<["prompt_suggestions" := VStrs suggestions]> ∅)))
             (conversations db) in
  (try_except "MongoDB error: " (inserted_id ← fst r; Ok (str_oid inserted_id)),
   {| users := users db; conversations := snd r |}).

Definition get_prompt_suggestions (user_id conversation_id : string)
    (db : database) : result value :=
  try_except "MongoDB error: "
    (o ← ObjectId conversation_id;
     let result := find_one [("_id", VOid o); ("user_id", VStr user_id)]
                     (conversations db) in
     subscript result "prompt_suggestions").

Definition get_chat_history (user_id conversation_id : string)
    (db : database) : result value :=
  try_except "MongoDB error: "
    (o ← ObjectId conversation_id;
     let result := find_one [("_id", VOid o); ("user_id", VStr user_id)]
                     (conversations db) in
     subscript result "history").

Definition update_chat_history (user_id conversation_id : string)
    (history : list message) (db : database) : result bool * database :=
  match ObjectId conversation_id with
  | Raise e => (Raise (Exception "MongoDB error: " e), db)
  | Ok o =>
      let r := update_one [("_id", VOid o); ("user_id", VStr user_id)]
                 [("history", VMsgs history)] (conversations db) in
      (Ok (0 <? fst r)%nat, {| users := users db; conversations := snd r |})
  end.

Definition verify_auth_token (user_id session_token : string)
    (db : database) : result bool :=
  o ← ObjectId user_id;
  let user_doc := find_one [("_id", VOid o)] (users db) in
  Ok (match user_doc with
      | None => false
      | Some d =>
          bool_decide (default (VStr "") (doc_get d "session_token")
                       = VStr session_token)
      end).

Definition verify_conversation (user_id conversation_id : string)
    (db : database) : result bool :=
  try_except "Error: "
    (o ← ObjectId conversation_id;
     let result := find_one [("_id", VOid o); ("user_id", VStr user_id)]
                     (conversations db) in
     Ok (bool_decide (result ≠ None))).

End MongoHandler.

(** ** The store handle

    [MongoHandler.__new__] keeps its state in class attributes.  The
    process state below holds them together with the allocator of object
    identities.  [MongoClient] belongs to the driver: it is a parameter,
    returning the client or raising. *)

Module Handle.
Section Handle.

Variable client : Type.
Variable MongoClient : string -> result client.

Record process : Type := {
  next_object : nat;                  (* identity of the next allocated object *)
  cls_instance : option nat;          (* MongoHandler._instance *)
  cls_client : option client;         (* MongoHandler._client *)
  cls_db : option (client * string)   (* MongoHandler.db *)
}.

Definition start : process :=
  {| next_object := 0; cls_instance := None; cls_client := None; cls_db := None |}.

(** [MongoHandler(uri)] *)
Definition __new__ (uri : string) (p : process) : result nat * process :=
  match cls_instance p with
  | None =>
      let self := next_object p in
      let p1 := {| next_object := S self; cls_instance := Some self;
                   cls_client := cls_client p; cls_db := cls_db p |} in
      match MongoClient uri with
      | Raise e => (Raise e, p1)
      | Ok c =>
          (Ok self,
           {| next_object := next_object p1; cls_instance := cls_instance p1;
              cls_client := Some c; cls_db := Some (c, "askage") |})
      end
  | Some instance => (Ok instance, p)
  end.

(** Successive calls [MongoHandler(u1)], [MongoHandler(u2)], ... *)
Fixpoint calls (uris : list string) (p : process) : list (result nat) * process :=
  match uris with
  | [] => ([], p)
  | uri :: uris' =>
      let r := __new__ uri p in
      let rs := calls uris' (snd r) in
      (fst r :: fst rs, snd rs)
  end.

End Handle.
End Handle.

(** ** Reachable databases: what the handler's writes build from the
    empty database. *)

Inductive reachable : database -> Prop :=
| reach_empty : reachable empty_db
| reach_register entropy fresh google_sub email db :
    reachable db ->
    reachable (snd (MongoHandler.register_google_user entropy fresh google_sub email db))
| reach_new_conversation fresh user_id suggestions db :
    reachable db ->
    reachable (snd (MongoHandler.new_conversation fresh user_id suggestions db))
| reach_update_history user_id conversation_id history db :
    reachable db ->
    reachable (snd (MongoHandler.update_chat_history user_id conversation_id history db)).


(** The fields of the record [register_google_user] inserts. *)
Definition new_user_fields (google_sub tok email : string) : gmap string value :=
  <["google_sub" := VStr google_sub]>
    (<["session_token" := VStr tok]> (<["email" := VStr email]> ∅)).

(** The credential text [f"{user_id}:{session_token}"]. *)
Definition credential (user_id : oid) (session_token : string) : string :=
  str_oid user_id +:+ ":" +:+ session_token.

(** A user record as [register_google_user] writes it: the three fields
    are strings, [google_sub] and [email] not empty. *)
Definition user_record_ok (d : document) : Prop :=
  exists google_sub email session_token,
    doc_get d "google_sub" = Some (VStr google_sub) /\ google_sub <> ""
    /\ doc_get d "email" = Some (VStr email) /\ email <> ""
    /\ doc_get d "session_token" = Some (VStr session_token).

(** A conversation record as [new_conversation] writes it. *)
Definition conversation_record_ok (d : document) : Prop :=
  exists user_id history suggestions,
    doc_get d "user_id" = Some (VStr user_id)
    /\ doc_get d "history" = Some (VMsgs history)
    /\ doc_get d "prompt_suggestions" = Some (VStrs suggestions).

(** Lower-case hexadecimal digits, the alphabet of [bytes.hex()]. *)
Definition is_lower_hex_digit (c : ascii) : bool :=
  existsb (Ascii.eqb c) (list_ascii_of_string "0123456789abcdef").

(** ** Sample data *)

Module Sample.

Definition alice_id : oid :=
  (x65, x4f, x1a, x2b, x3c, x4d, x5e, x6f, x70, x81, x92, xa3).
Definition conv_id : oid :=
  (x65, x4f, x1a, x2b, x3c, x4d, x5e, x6f, x70, x81, x92, xa4).
Definition other_id : oid :=
  (x00, x00, x00, x00, x00, x00, x00, x00, x00, x00, x00, x01).

Definition draw1 : list byte :=
  [x0f; x1e; x2d; x3c; x4b; x5a; x69; x78; x87; x96; xa5; xb4; xc3; xd2; xe1; xf0].
Definition draw2 : list byte :=
  [x10; x1e; x2d; x3c; x4b; x5a; x69; x78; x87; x96; xa5; xb4; xc3; xd2; xe1; xf0].

(** Alice has logged in once. *)
Definition db_alice : database :=
  snd (MongoHandler.register_google_user draw1 alice_id "sub-alice"
         "alice@example.org" empty_db).

(** ... and has opened one conversation. *)
Definition db_conv : database :=
  snd (MongoHandler.new_conversation conv_id (str_oid alice_id) ["s1"; "s2"] db_alice).

Definition conv_doc : document :=
  {| _id := conv_id;
     fields := <["user_id" := VStr (str_oid alice_id)]>
                 (<["history" := VMsgs [system_message]]>
                    (<["prompt_suggestions" := VStrs ["s1"; "s2"]]> ∅)) |}.

(** A user record written without a [session_token]. *)
Definition tokenless_doc : document :=
  {| _id := other_id; fields := <["google_sub" := VStr "sub-old"]> ∅ |}.
Definition db_tokenless : database :=
  {| users := [tokenless_doc]; conversations := [] |}.

Definition new_history : list message :=
  [system_message; {| role := "user"; content := "hi" |}].

(** A driver that accepts every uri. *)
Definition MongoClient (uri : string) : result string := Ok uri.

(** Alice's record after her first login. *)
Definition alice_doc : document :=
  {| _id := alice_id;
     fields := new_user_fields "sub-alice" (MongoHandler.generate_session_token draw1)
                 "alice@example.org" |}.

(** A driver that refuses the empty uri. *)
Definition strict_MongoClient (uri : string) : result string :=
  if bool_decide (uri = "") then Raise BareException else Ok uri.

(** Alice has logged in a second time. *)
Definition db_alice2 : database :=
  snd (MongoHandler.register_google_user draw2 other_id "sub-alice"
         "alice@example.com" db_alice).

End Sample.

(** The keys of a query are none of the keys an update writes. *)
Ltac keys_apart :=
  let k := fresh "k" in
  let Hk := fresh "Hk" in
  intros k Hk; simpl in *;
  repeat (apply elem_of_cons in Hk as [->|Hk]);
  [ repeat (apply not_elem_of_cons; split; [discriminate|]); apply not_elem_of_nil ..
  | inversion Hk ].

(** * Properties *)

(** ** Hexadecimal text *)

Lemma fromhex_hex_cons (b : byte) (l : list byte) :
  Hex.fromhex (Hex.hex (b :: l)) =
  match Hex.fromhex (Hex.hex l) with
  | Some l' => Some (b :: l')
  | None => None
  end.
Proof. destruct b; reflexivity. Qed.

Lemma fromhex_hex (l : list byte) : Hex.fromhex (Hex.hex l) = Some l.
Proof.
  induction l as [|b l IH]; [reflexivity|].
  rewrite fromhex_hex_cons, IH. reflexivity.
Qed.

Lemma hex_inj (l1 l2 : list byte) : Hex.hex l1 = Hex.hex l2 -> l1 = l2.
Proof.
  intros H. apply (f_equal Hex.fromhex) in H.
  rewrite !fromhex_hex in H. congruence.
Qed.

Lemma ObjectId_str_oid (o : oid) : ObjectId (str_oid o) = Ok o.
Proof.
  destruct o as [[[[[[[[[[[b0 b1] b2] b3] b4] b5] b6] b7] b8] b9] b10] b11].
  unfold ObjectId, str_oid. rewrite fromhex_hex. reflexivity.
Qed.

Lemma append_inv_head (p s1 s2 : string) : p +:+ s1 = p +:+ s2 -> s1 = s2.
Proof.
  induction p as [|c p IH]; simpl; intros H; [exact H|].
  injection H as H. auto.
Qed.

Lemma value_is_hex_digit (c : ascii) :
  is_hex_digit c = true <-> exists n, Hex.value c = Some n /\ (n < 16)%N.
Proof.
  destruct c as [[] [] [] [] [] [] [] []]; vm_compute;
    (split; [intros H; try discriminate H; eexists; split; reflexivity
            | intros (n & H & _); try discriminate H; reflexivity]).
Qed.

Lemma hex_digit_not_space (c : ascii) : is_hex_digit c = true -> Hex.is_space c = false.
Proof.
  destruct c as [[] [] [] [] [] [] [] []]; vm_compute; intros H;
    try discriminate H; reflexivity.
Qed.

Lemma byte_of_hex_digits (hi lo : N) :
  (hi < 16)%N -> (lo < 16)%N -> exists b, Byte.of_N (16 * hi + lo) = Some b.
Proof.
  intros Hhi Hlo. destruct (Byte.of_N (16 * hi + lo)) as [b|] eqn:Hb; [eauto|].
  apply Byte.of_N_None_iff in Hb. lia.
Qed.

Lemma string_pairs_ind (P : string -> Prop) :
  P EmptyString ->
  (forall c, P (String c EmptyString)) ->
  (forall c1 c2 s, P s -> P (String c1 (String c2 s))) ->
  forall s, P s.
Proof.
  intros H0 H1 H2 s.
  enough (P s /\ forall c, P (String c s)) as [H _] by exact H.
  induction s as [|c s [IH1 IH2]]; split; auto.
Qed.

Lemma hex_value_bound (c : ascii) (n : N) : Hex.value c = Some n -> (n < 16)%N.
Proof.
  intros Hc. destruct (is_hex_digit c) eqn:E.
  - apply value_is_hex_digit in E as (n' & Hn' & Hlt). congruence.
  - exfalso. destruct c as [[] [] [] [] [] [] [] []]; vm_compute in Hc, E; discriminate.
Qed.

(** What [fromhex] takes is made of pairs of hexadecimal digits and of
    whitespace: one byte for every two digits ... *)
Lemma fromhex_Some (s : string) (l : list byte) :
  Hex.fromhex s = Some l ->
  String.length s
  = 2 * length l + length (List.filter Hex.is_space (list_ascii_of_string s))
  /\ forallb (fun c => is_hex_digit c || Hex.is_space c) (list_ascii_of_string s) = true.
Proof.
  enough (forall n s l, String.length s <= n -> Hex.fromhex s = Some l ->
            String.length s
            = 2 * length l + length (List.filter Hex.is_space (list_ascii_of_string s))
            /\ forallb (fun c => is_hex_digit c || Hex.is_space c)
                 (list_ascii_of_string s) = true) as Hall by eauto.
  clear s l. induction n as [|n IH]; intros [|c1 rest] l Hle H;
    cbn [String.length] in Hle; try lia.
  - injection H as <-. split; reflexivity.
  - injection H as <-. split; reflexivity.
  - cbn [Hex.fromhex] in H.
    cbn [String.length list_ascii_of_string List.filter forallb].
    destruct (Hex.is_space c1) eqn:Hsp.
    + destruct (IH rest l ltac:(lia) H) as [Hlen Hall].
      rewrite Hall, orb_true_r. cbn [length]. split; [lia | reflexivity].
    + destruct rest as [|c2 rest']; [discriminate|].
      destruct (Hex.value c1) as [hi|] eqn:H1; [|discriminate].
      destruct (Hex.value c2) as [lo|] eqn:H2; [|discriminate].
      destruct (Byte.of_N (16 * hi + lo)) as [b|] eqn:Hb; [|discriminate].
      destruct (Hex.fromhex rest') as [l'|] eqn:Hs; [|discriminate].
      injection H as <-. cbn [String.length] in Hle.
      destruct (IH rest' l' ltac:(lia) Hs) as [Hlen Hall].
      assert (is_hex_digit c1 = true) as Hd1
        by (apply value_is_hex_digit; eauto using hex_value_bound).
      assert (is_hex_digit c2 = true) as Hd2
        by (apply value_is_hex_digit; eauto using hex_value_bound).
      cbn [String.length list_ascii_of_string List.filter forallb length].
      rewrite (hex_digit_not_space c2 Hd2), Hd1, Hd2, Hall.
      split; [lia | reflexivity].
Qed.

(** ... and it takes every even number of hexadecimal digits. *)
Lemma fromhex_total (s : string) :
  Nat.even (String.length s) = true ->
  forallb is_hex_digit (list_ascii_of_string s) = true ->
  exists l, Hex.fromhex s = Some l.
Proof.
  induction s as [| c | c1 c2 s IH] using string_pairs_ind.
  - intros _ _. exists []. reflexivity.
  - discriminate.
  - cbn [String.length list_ascii_of_string forallb Nat.even Hex.fromhex].
    rewrite !andb_true_iff. intros Heven (Hc1 & Hc2 & Hhex).
    rewrite (hex_digit_not_space c1 Hc1).
    apply value_is_hex_digit in Hc1 as (hi & -> & Hhi).
    apply value_is_hex_digit in Hc2 as (lo & -> & Hlo).
    destruct (byte_of_hex_digits hi lo Hhi Hlo) as [b ->].
    destruct (IH Heven Hhex) as [l ->]. eauto.
Qed.

Lemma hex_digits_no_space (cs : list ascii) :
  forallb is_hex_digit cs = true -> List.filter Hex.is_space cs = [].
Proof.
  induction cs as [|c cs IH]; [reflexivity|].
  cbn [forallb List.filter]. rewrite andb_true_iff. intros [Hc Hcs].
  rewrite (hex_digit_not_space c Hc). auto.
Qed.

Lemma no_space_hex_digits (cs : list ascii) :
  length (List.filter Hex.is_space cs) = 0 ->
  forallb (fun c => is_hex_digit c || Hex.is_space c) cs = true ->
  forallb is_hex_digit cs = true.
Proof.
  induction cs as [|c cs IH]; [reflexivity|].
  cbn [forallb List.filter]. rewrite !andb_true_iff.
  destruct (Hex.is_space c); cbn [length]; [discriminate|].
  rewrite orb_false_r. intros Hlen [Hc Hcs]. auto.
Qed.

Lemma oid_bytes_inj (o1 o2 : oid) : oid_bytes o1 = oid_bytes o2 -> o1 = o2.
Proof.
  destruct o1 as [[[[[[[[[[[a0 a1] a2] a3] a4] a5] a6] a7] a8] a9] a10] a11].
  destruct o2 as [[[[[[[[[[[b0 b1] b2] b3] b4] b5] b6] b7] b8] b9] b10] b11].
  cbn [oid_bytes]. congruence.
Qed.

Lemma oid_bytes_length (o : oid) : length (oid_bytes o) = 12.
Proof.
  destruct o as [[[[[[[[[[[b0 b1] b2] b3] b4] b5] b6] b7] b8] b9] b10] b11].
  reflexivity.
Qed.

Lemma twelve_bytes (l : list byte) : length l = 12 -> exists o : oid, oid_bytes o = l.
Proof.
  intros Hlen.
  do 13 (destruct l as [|? l]; cbn [length] in Hlen; try lia).
  eexists (_, _, _, _, _, _, _, _, _, _, _, _). reflexivity.
Qed.

Lemma ObjectId_Ok (s : string) (binary : object_id) :
  ObjectId s = Ok binary <-> String.length s = 24 /\ Hex.fromhex s = Some binary.
Proof.
  unfold ObjectId. destruct (String.length s =? 24)%nat eqn:Hlen.
  - apply Nat.eqb_eq in Hlen.
    destruct (Hex.fromhex s) as [l|]; split;
      [intros [= <-]; auto | intros [_ [= <-]]; reflexivity
      | discriminate | intros [_ H]; discriminate].
  - apply Nat.eqb_neq in Hlen. split; [discriminate | intros [H _]; contradiction].
Qed.

Lemma ObjectId_Raise (s : string) (e : exn) : ObjectId s = Raise e -> e = InvalidId s.
Proof.
  unfold ObjectId. destruct (String.length s =? 24)%nat; [|congruence].
  destruct (Hex.fromhex s); [discriminate | congruence].
Qed.

(** [ObjectId] makes a twelve-byte id of exactly the well-formed strings. *)
Lemma ObjectId_well_formed (s : string) :
  well_formed_id s = true <-> exists o : oid, ObjectId s = Ok o.
Proof.
  unfold well_formed_id. rewrite andb_true_iff, Nat.eqb_eq. split.
  - intros [Hlen Hhex].
    destruct (fromhex_total s) as [l Hl]; [rewrite Hlen; reflexivity | exact Hhex |].
    destruct (fromhex_Some s l Hl) as [Hlen' _].
    rewrite (hex_digits_no_space _ Hhex), Hlen in Hlen'. cbn [length] in Hlen'.
    destruct (twelve_bytes l) as [o <-]; [lia|].
    exists o. apply ObjectId_Ok. auto.
  - intros [o Ho]. apply ObjectId_Ok in Ho as [Hlen Ho].
    destruct (fromhex_Some s _ Ho) as [Hlen' Hall].
    rewrite oid_bytes_length, Hlen in Hlen'.
    split; [exact Hlen|]. apply no_space_hex_digits; [lia | exact Hall].
Qed.

(** [ObjectId] refuses every string whose length is not 24 and every
    string holding a character that is neither digit nor whitespace. *)
Lemma ObjectId_rejects (s : string) :
  String.length s <> 24 \/ has_foreign_char s = true ->
  ObjectId s = Raise (InvalidId s).
Proof.
  intros H. destruct (ObjectId s) as [binary|e] eqn:Ho.
  - exfalso. apply ObjectId_Ok in Ho as [Hlen Ho].
    destruct H as [H|H]; [contradiction|].
    destruct (fromhex_Some s _ Ho) as [_ Hall].
    unfold has_foreign_char in H. apply existsb_exists in H as (c & Hin & Hc).
    rewrite forallb_forall in Hall. rewrite (Hall c Hin) in Hc. discriminate.
  - apply ObjectId_Raise in Ho as ->. reflexivity.
Qed.

(** ** Documents, queries and updates *)

Lemma doc_get_apply_set_other (upd : list (string * value)) (d : document) (k : string) :
  k ∉ upd.*1 -> doc_get (apply_set upd d) k = doc_get d k.
Proof.
  unfold doc_get, apply_set; simpl. intros Hk.
  destruct (decide (k = "_id")) as [_|_]; [reflexivity|].
  generalize (fields d) as m.
  induction upd as [|[k' v] upd IH]; intros m; simpl; [reflexivity|].
  rewrite fmap_cons, not_elem_of_cons in Hk. destruct Hk as [Hne Hk].
  rewrite IH by exact Hk. apply lookup_insert_ne. simpl in Hne. congruence.
Qed.

Lemma matches_apply_set (q upd : list (string * value)) (d : document) :
  (forall k, k ∈ q.*1 -> k ∉ upd.*1) ->
  matches q (apply_set upd d) = matches q d.
Proof.
  unfold matches. induction q as [|[k v] q IH]; intros Hq; simpl; [reflexivity|].
  rewrite doc_get_apply_set_other by (apply Hq; simpl; left).
  f_equal. apply IH. intros k' Hk'. apply Hq. simpl. right. exact Hk'.
Qed.

Lemma matches_binary (binary : object_id) (q : list (string * value)) (d : document) :
  matches (("_id", VOid binary) :: q) d
  = bool_decide (oid_bytes (_id d) = binary) && matches q d.
Proof.
  unfold matches at 1; simpl. unfold doc_get at 1; simpl. f_equal.
  apply bool_decide_ext. split; congruence.
Qed.

Lemma matches_id (o : oid) (d : document) :
  matches [("_id", VOid o)] d = bool_decide (_id d = o).
Proof.
  rewrite matches_binary. unfold matches at 1; simpl. rewrite andb_true_r.
  apply bool_decide_ext. split; [apply oid_bytes_inj | congruence].
Qed.

Lemma matches_id_and (o : oid) (q : list (string * value)) (d : document) :
  matches (("_id", VOid o) :: q) d = bool_decide (_id d = o) && matches q d.
Proof.
  rewrite matches_binary. f_equal.
  apply bool_decide_ext. split; [apply oid_bytes_inj | congruence].
Qed.

Lemma find_one_Some (q : list (string * value)) (c : collection) (d : document) :
  find_one q c = Some d -> d ∈ c /\ matches q d = true.
Proof.
  unfold find_one. intros H. apply find_some in H as [Hin Hm].
  split; [apply list_elem_of_In; exact Hin | exact Hm].
Qed.

Lemma find_one_None (q : list (string * value)) (c : collection) :
  find_one q c = None <-> forall d, d ∈ c -> matches q d = false.
Proof.
  unfold find_one. induction c as [|d c IH]; simpl.
  - split; [intros _ d Hd; inversion Hd | reflexivity].
  - destruct (matches q d) eqn:Hm.
    + split; [discriminate|]. intros H. rewrite (H d) in Hm by left. discriminate.
    + rewrite IH. split.
      * intros H d' Hd'. apply elem_of_cons in Hd' as [->|Hd']; auto.
      * intros H d' Hd'. apply H. right. exact Hd'.
Qed.

Lemma find_one_is_Some (q : list (string * value)) (c : collection) (d : document) :
  d ∈ c -> matches q d = true -> is_Some (find_one q c).
Proof.
  intros Hin Hm. destruct (find_one q c) eqn:Hf; [eauto|].
  rewrite find_one_None in Hf. rewrite (Hf d Hin) in Hm. discriminate.
Qed.

Lemma find_one_app_None (q : list (string * value)) (c : collection) (d : document) :
  find_one q c = None -> matches q d = true -> find_one q (c ++ [d]) = Some d.
Proof.
  unfold find_one. induction c as [|d' c IH]; simpl; intros Hf Hm.
  - rewrite Hm. reflexivity.
  - destruct (matches q d'); [discriminate|]. auto.
Qed.

Lemma find_one_app_Some (q : list (string * value)) (c c' : collection) (d : document) :
  find_one q c = Some d -> find_one q (c ++ c') = Some d.
Proof.
  unfold find_one. induction c as [|d' c IH]; simpl; [discriminate|].
  destruct (matches q d'); auto.
Qed.

Lemma update_one_None (q upd : list (string * value)) (c : collection) :
  find_one q c = None -> update_one q upd c = (0, c).
Proof.
  unfold find_one. induction c as [|d c IH]; simpl; [reflexivity|].
  destruct (matches q d); [discriminate|].
  intros Hf. rewrite (IH Hf). reflexivity.
Qed.

Lemma update_one_matched (q upd : list (string * value)) (c : collection) :
  fst (update_one q upd c) = match find_one q c with Some _ => 1 | None => 0 end.
Proof.
  unfold find_one. induction c as [|d c IH]; simpl; [reflexivity|].
  destruct (matches q d); simpl; [reflexivity | exact IH].
Qed.

(** A query untouched by the update still sees the same documents, in the
    same places. *)
Lemma find_one_update_one (q' q upd : list (string * value)) (c : collection) :
  (forall d, matches q' (apply_set upd d) = matches q' d) ->
  find_one q' (snd (update_one q upd c)) =
  match find_one q' c with
  | Some d =>
      if bool_decide (find_one q c = Some d) then Some (apply_set upd d) else Some d
  | None => None
  end.
Proof.
  intros Hq'. unfold find_one. induction c as [|d c IH]; simpl; [reflexivity|].
  destruct (matches q d) eqn:Hq; simpl.
  - rewrite Hq'. destruct (matches q' d) eqn:Hm.
    + rewrite bool_decide_eq_true_2 by reflexivity. reflexivity.
    + destruct (find (matches q') c) as [d'|] eqn:Hf; [|reflexivity].
      rewrite bool_decide_eq_false_2; [reflexivity|].
      intros [= <-]. apply find_some in Hf as [_ Hf]. congruence.
  - destruct (matches q' d) eqn:Hm.
    + destruct (find (matches q) c) as [d'|] eqn:Hf.
      * rewrite bool_decide_eq_false_2; [reflexivity|].
        intros [= ->]. apply find_some in Hf as [_ Hf]. congruence.
      * rewrite bool_decide_eq_false_2; [reflexivity | discriminate].
    + exact IH.
Qed.

Lemma update_one_ids (q upd : list (string * value)) (c : collection) :
  _id <$> snd (update_one q upd c) = _id <$> c.
Proof.
  induction c as [|d c IH]; simpl; [reflexivity|].
  destruct (matches q d); simpl; [reflexivity | f_equal; exact IH].
Qed.



Lemma find_one_id_fresh (o : oid) (q : list (string * value)) (c : collection) :
  existsb (fun d => bool_decide (_id d = o)) c = false ->
  find_one (("_id", VOid o) :: q) c = None.
Proof.
  intros Hex. apply find_one_None. intros d Hd.
  rewrite matches_id_and.
  destruct (bool_decide (_id d = o)) eqn:Hid; [|reflexivity].
  assert (existsb (fun d => bool_decide (_id d = o)) c = true) as Ht.
  { apply existsb_exists. exists d. split; [apply list_elem_of_In; exact Hd | exact Hid]. }
  congruence.
Qed.

Lemma value_matches_refl_str (s : string) : value_matches (VStr s) (VStr s) = true.
Proof. simpl. apply bool_decide_eq_true_2. reflexivity. Qed.

Lemma value_matches_str (s s' : string) :
  value_matches (VStr s) (VStr s') = bool_decide (s = s').
Proof. simpl. apply bool_decide_ext. split; congruence. Qed.

(** ** Registration and login *)

(** C8: with an empty [google_sub] or an empty [email],
    [register_google_user] raises at its argument check (the bare
    [Exception] of line 41, the spec's InvalidArgument) and the database,
    hence every User record, is left as it was. *)
Theorem register_google_user_rejects_empty
    (entropy : list byte) (fresh : oid) (google_sub email : string) (db : database) :
  google_sub = "" \/ email = "" ->
  MongoHandler.register_google_user entropy fresh google_sub email db
  = (Raise BareException, db).
Proof.
  intros [-> | ->]; unfold MongoHandler.register_google_user.
  - reflexivity.
  - rewrite (bool_decide_eq_true_2 ("" = "")) by reflexivity.
    rewrite orb_true_r. reflexivity.
Qed.

(** ** Session verification *)

(** C10: for a stored user document without a [session_token] field, the
    empty string verifies: the comparison reads the missing field as the
    empty string. *)
Theorem verify_auth_token_empty_for_tokenless_user
    (o : oid) (d : document) (db : database) :
  find_one [("_id", VOid o)] (users db) = Some d ->
  doc_get d "session_token" = None ->
  MongoHandler.verify_auth_token (str_oid o) "" db = Ok true.
Proof.
  intros Hfind Hnone. unfold MongoHandler.verify_auth_token.
  rewrite ObjectId_str_oid. cbn [mbind result_bind].
  rewrite Hfind, Hnone. reflexivity.
Qed.

(** C2, as the code has it: on a [user_id] of 24 hexadecimal digits
    [verify_auth_token] answers with a boolean, never an exception, and
    the answer is true exactly when a record is stored under that id and
    its token is the presented one, so a missing record gives false.  On
    a [user_id] whose length is not 24, or that holds a character that
    is neither a hexadecimal digit nor whitespace, the [InvalidId] of
    [ObjectId] escapes. *)
Theorem verify_auth_token_outcomes (user_id session_token : string) (db : database) :
  (well_formed_id user_id = true ->
   exists b,
     MongoHandler.verify_auth_token user_id session_token db = Ok b /\
     (b = true <->
      exists (o : oid) d,
        ObjectId user_id = Ok o /\
        find_one [("_id", VOid o)] (users db) = Some d /\
        default (VStr "") (doc_get d "session_token") = VStr session_token))
  /\ (String.length user_id <> 24 \/ has_foreign_char user_id = true ->
      MongoHandler.verify_auth_token user_id session_token db
      = Raise (InvalidId user_id)).
Proof.
  unfold MongoHandler.verify_auth_token. split.
  - intros Hwf. apply ObjectId_well_formed in Hwf as [o Ho]. rewrite Ho.
    cbn [mbind result_bind]. eexists. split; [reflexivity|].
    destruct (find_one [("_id", VOid o)] (users db)) as [d|] eqn:Hd.
    + rewrite bool_decide_eq_true. split.
      * intros H. exists o, d. auto.
      * intros (o' & d' & [= Ho'] & Hd' & H). apply oid_bytes_inj in Ho' as <-.
        rewrite Hd in Hd'. injection Hd' as <-. exact H.
    + split; [discriminate|].
      intros (o' & d' & [= Ho'] & Hd' & _). apply oid_bytes_inj in Ho' as <-.
      congruence.
  - intros Hbad. rewrite (ObjectId_rejects _ Hbad). reflexivity.
Qed.

(** C2, counterexample: a malformed [user_id] makes [verify_auth_token]
    raise instead of returning false. *)
Lemma verify_auth_token_raises_on_malformed_id :
  MongoHandler.verify_auth_token "not-an-object-id" "" empty_db
  = Raise (InvalidId "not-an-object-id")
  /\ MongoHandler.verify_auth_token "not-an-object-id" "" empty_db <> Ok false.
Proof. split; [reflexivity | discriminate]. Qed.

(** ** Conversations *)

(** C5: once [new_conversation] has returned an id, the owner reads back
    a history holding the system message alone and the suggestions that
    were passed in. *)
Theorem new_conversation_then_read
    (fresh : oid) (user_id : string) (suggestions : list string)
    (db db' : database) (conversation_id : string) :
  MongoHandler.new_conversation fresh user_id suggestions db = (Ok conversation_id, db') ->
  MongoHandler.get_chat_history user_id conversation_id db'
  = Ok (VMsgs [{| role := "system"; content := system_content |}])
  /\ MongoHandler.get_prompt_suggestions user_id conversation_id db'
     = Ok (VStrs suggestions).
Proof.
  unfold MongoHandler.new_conversation, insert_one.
  destruct (existsb _ (conversations db)) eqn:Hfresh; cbn; [discriminate|].
  intros [= <- <-].
  unfold MongoHandler.get_chat_history, MongoHandler.get_prompt_suggestions.
  rewrite ObjectId_str_oid. cbn [mbind result_bind conversations].
  rewrite (find_one_app_None _ _ _ (find_one_id_fresh _ _ _ Hfresh)).
  - split; reflexivity.
  - rewrite matches_id_and. cbn [_id].
    rewrite bool_decide_eq_true_2 by reflexivity.
    unfold matches, doc_get; simpl. rewrite lookup_insert_eq.
    rewrite value_matches_refl_str. reflexivity.
Qed.

Lemma history_update_keeps_owner_query (o : oid) (user_id : string)
    (history : list message) (d : document) :
  matches [("_id", VOid o); ("user_id", VStr user_id)]
    (apply_set [("history", VMsgs history)] d)
  = matches [("_id", VOid o); ("user_id", VStr user_id)] d.
Proof.
  apply matches_apply_set. intros k Hk. simpl in *.
  rewrite !elem_of_cons in Hk. rewrite !not_elem_of_cons.
  destruct Hk as [->|[->|Hk]]; [split; [discriminate|apply not_elem_of_nil]..|].
  inversion Hk.
Qed.

(** C6: for a conversation the lookup by id and owner finds,
    [update_chat_history] returns true, stores the given history in place
    of the old one (the other fields of the document and the users stay
    as they were), and [get_chat_history] then returns that history. *)
Theorem update_chat_history_then_get
    (user_id conversation_id : string) (o : oid) (d : document)
    (history : list message) (db : database) :
  ObjectId conversation_id = Ok o ->
  find_one [("_id", VOid o); ("user_id", VStr user_id)] (conversations db) = Some d ->
  let r := MongoHandler.update_chat_history user_id conversation_id history db in
  fst r = Ok true
  /\ MongoHandler.get_chat_history user_id conversation_id (snd r) = Ok (VMsgs history)
  /\ find_one [("_id", VOid o); ("user_id", VStr user_id)] (conversations (snd r))
     = Some {| _id := _id d; fields := <["history" := VMsgs history]> (fields d) |}
  /\ users (snd r) = users db.
Proof.
  intros Hoid Hfind. unfold MongoHandler.update_chat_history.
  rewrite Hoid. cbn [fst snd users conversations].
  rewrite update_one_matched, Hfind.
  assert (find_one [("_id", VOid o); ("user_id", VStr user_id)]
            (snd (update_one [("_id", VOid o); ("user_id", VStr user_id)]
                    [("history", VMsgs history)] (conversations db)))
          = Some (apply_set [("history", VMsgs history)] d)) as Hafter.
  { rewrite find_one_update_one by apply history_update_keeps_owner_query.
    rewrite Hfind, bool_decide_eq_true_2 by reflexivity. reflexivity. }
  repeat split.
  - unfold MongoHandler.get_chat_history. rewrite Hoid.
    cbn [mbind result_bind conversations]. rewrite Hafter.
    unfold subscript, doc_get, apply_set; simpl.
    rewrite lookup_insert_eq. reflexivity.
  - exact Hafter.
Qed.

(** C7, as the code has it: for a well-formed [conversation_id], when
    the lookup by id and owner finds nothing (no such id, or a
    conversation of another user), [update_chat_history] returns false
    and the database is the one it was given, so every field of every
    stored conversation is unchanged. *)
Theorem update_chat_history_no_match
    (user_id conversation_id : string) (o : oid)
    (history : list message) (db : database) :
  ObjectId conversation_id = Ok o ->
  find_one [("_id", VOid o); ("user_id", VStr user_id)] (conversations db) = None ->
  MongoHandler.update_chat_history user_id conversation_id history db = (Ok false, db).
Proof.
  intros Hoid Hfind. unfold MongoHandler.update_chat_history.
  rewrite Hoid, (update_one_None _ _ _ Hfind). destruct db; reflexivity.
Qed.

(** C7, counterexample: for a conversation id that does not exist and
    is not the text of an [ObjectId], [update_chat_history] raises
    instead of returning false (the database is still unchanged). *)
Lemma update_chat_history_raises_on_unknown_text :
  MongoHandler.update_chat_history (str_oid Sample.alice_id) "no-such-conversation"
    Sample.new_history Sample.db_conv
  = (Raise (Exception "MongoDB error: " (InvalidId "no-such-conversation")), Sample.db_conv)
  /\ fst (MongoHandler.update_chat_history (str_oid Sample.alice_id) "no-such-conversation"
            Sample.new_history Sample.db_conv) <> Ok false.
Proof. split; [reflexivity | discriminate]. Qed.

(** ** What a successful registration leaves in the store *)

Lemma login_update_keeps_sub_query (google_sub tok email : string) (d : document) :
  matches [("google_sub", VStr google_sub)]
    (apply_set [("session_token", VStr tok); ("email", VStr email)] d)
  = matches [("google_sub", VStr google_sub)] d.
Proof. apply matches_apply_set. keys_apart. Qed.

Lemma login_update_keeps_id_query (binary : object_id) (tok email : string)
    (d : document) :
  matches [("_id", VOid binary)]
    (apply_set [("session_token", VStr tok); ("email", VStr email)] d)
  = matches [("_id", VOid binary)] d.
Proof. apply matches_apply_set. keys_apart. Qed.

Lemma new_user_matches_sub (o : oid) (google_sub google_sub' tok email : string) :
  matches [("google_sub", VStr google_sub')]
    {| _id := o; fields := new_user_fields google_sub tok email |}
  = bool_decide (google_sub = google_sub').
Proof.
  unfold matches, doc_get, new_user_fields; simpl.
  rewrite lookup_insert_eq, andb_true_r. apply value_matches_str.
Qed.

Lemma register_google_user_inv
    (entropy : list byte) (fresh : oid) (google_sub email : string)
    (db db' : database) (r : result string) :
  MongoHandler.register_google_user entropy fresh google_sub email db = (r, db') ->
  let tok := MongoHandler.generate_session_token entropy in
  (r = Raise BareException /\ db' = db /\ (google_sub = "" \/ email = ""))
  \/ (google_sub <> "" /\ email <> "" /\
      ((exists e, find_one [("google_sub", VStr google_sub)] (users db) = Some e /\
                  r = Ok (str_oid (_id e) +:+ ":" +:+ tok) /\
                  db' = {| users := snd (update_one [("_id", VOid (_id e))]
                                           [("session_token", VStr tok); ("email", VStr email)]
                                           (users db));
                           conversations := conversations db |})
       \/ (find_one [("google_sub", VStr google_sub)] (users db) = None /\
           existsb (fun d => bool_decide (_id d = fresh)) (users db) = true /\
           r = Raise (DuplicateKeyError fresh) /\ db' = db)
       \/ (find_one [("google_sub", VStr google_sub)] (users db) = None /\
           existsb (fun d => bool_decide (_id d = fresh)) (users db) = false /\
           r = Ok (str_oid fresh +:+ ":" +:+ tok) /\
           db' = {| users := users db ++ [{| _id := fresh;
                                             fields := new_user_fields google_sub tok email |}];
                    conversations := conversations db |}))).
Proof.
  unfold MongoHandler.register_google_user.
  destruct (bool_decide (google_sub = "")) eqn:Hs; cbn [orb].
  { intros [= <- <-]. apply bool_decide_eq_true in Hs. left. auto. }
  destruct (bool_decide (email = "")) eqn:He.
  { intros [= <- <-]. apply bool_decide_eq_true in He. left. auto. }
  apply bool_decide_eq_false in Hs, He. intros H. right.
  split; [exact Hs|]. split; [exact He|].
  destruct (find_one _ (users db)) as [e|] eqn:Hfind.
  - injection H as <- <-. left. exists e. auto.
  - right. unfold insert_one in H.
    destruct (existsb _ (users db)) eqn:Hfresh; cbn in H; injection H as <- <-.
    + left. destruct db; auto.
    + right. auto.
Qed.

(** After a registration that returned a credential: the id it carries,
    the record a lookup by [google_sub] now finds, and the token the
    record stored under that id now holds. *)
Lemma register_google_user_ok
    (entropy : list byte) (fresh : oid) (google_sub email : string)
    (db db' : database) (cred : string) :
  MongoHandler.register_google_user entropy fresh google_sub email db = (Ok cred, db') ->
  let tok := MongoHandler.generate_session_token entropy in
  exists uid,
    cred = str_oid uid +:+ ":" +:+ tok
    /\ google_sub <> ""
    /\ (exists d, find_one [("google_sub", VStr google_sub)] (users db') = Some d
                  /\ _id d = uid)
    /\ (exists d, find_one [("_id", VOid uid)] (users db') = Some d
                  /\ doc_get d "session_token" = Some (VStr tok))
    /\ (forall e, find_one [("google_sub", VStr google_sub)] (users db) = Some e ->
                  _id e = uid).
Proof.
  intros H tok. apply register_google_user_inv in H.
  destruct H as [(H & _) | (Hs & He & [(e & Hfind & Hr & ->) | [(_ & _ & Hr & _) | (Hfind & Hfresh & Hr & ->)]])];
    try discriminate; injection Hr as ->; fold tok.
  - exists (_id e). split; [reflexivity|]. split; [exact Hs|]. cbn [users].
    split; [|split].
    + rewrite find_one_update_one by (intros; apply login_update_keeps_sub_query).
      rewrite Hfind. destruct (bool_decide _); eexists; split; reflexivity.
    + rewrite find_one_update_one by (intros; apply login_update_keeps_id_query).
      apply find_one_Some in Hfind as [Hin _].
      destruct (find_one_is_Some [("_id", VOid (_id e))] (users db) e Hin) as [d0 Hd0].
      { rewrite matches_id. apply bool_decide_eq_true_2. reflexivity. }
      rewrite Hd0, bool_decide_eq_true_2 by reflexivity.
      eexists. split; [reflexivity|].
      unfold doc_get, apply_set; simpl.
      rewrite lookup_insert_ne by discriminate. apply lookup_insert_eq.
    + intros e' He'. rewrite Hfind in He'. injection He' as <-. reflexivity.
  - exists fresh. split; [reflexivity|]. split; [exact Hs|]. cbn [users].
    split; [|split].
    + eexists. split; [apply find_one_app_None; [exact Hfind|] | reflexivity].
      rewrite new_user_matches_sub. apply bool_decide_eq_true_2. reflexivity.
    + eexists. split.
      * apply find_one_app_None; [apply find_one_id_fresh; exact Hfresh|].
        rewrite matches_id. apply bool_decide_eq_true_2. reflexivity.
      * unfold doc_get, new_user_fields; simpl.
        rewrite lookup_insert_ne by discriminate. apply lookup_insert_eq.
    + intros e He'. congruence.
Qed.

(** C3, as the code has it: right after [register_google_user] has
    returned the credential [<user_id>:<session_token>],
    [verify_auth_token] is true for that pair, false for that [user_id]
    with any other token, and false for every well-formed id of no
    stored user. *)
Theorem verify_auth_token_after_register
    (entropy : list byte) (fresh : oid) (google_sub email : string)
    (db db' : database) (cred : string) :
  MongoHandler.register_google_user entropy fresh google_sub email db = (Ok cred, db') ->
  let session_token := MongoHandler.generate_session_token entropy in
  exists user_id : oid,
    cred = str_oid user_id +:+ ":" +:+ session_token
    /\ MongoHandler.verify_auth_token (str_oid user_id) session_token db' = Ok true
    /\ (forall other_token, other_token <> session_token ->
          MongoHandler.verify_auth_token (str_oid user_id) other_token db' = Ok false)
    /\ (forall (missing_id : string) (missing : oid) (any_token : string),
          ObjectId missing_id = Ok missing ->
          (forall d, d ∈ users db' -> _id d <> missing) ->
          MongoHandler.verify_auth_token missing_id any_token db' = Ok false).
Proof.
  intros H tok.
  destruct (register_google_user_ok _ _ _ _ _ _ _ H)
    as (uid & Hcred & _ & _ & (d & Hd & Htok) & _).
  exists uid. split; [exact Hcred|].
  unfold MongoHandler.verify_auth_token.
  repeat split.
  - rewrite ObjectId_str_oid. cbn [mbind result_bind]. rewrite Hd, Htok.
    cbn [default]. rewrite bool_decide_eq_true_2 by reflexivity. reflexivity.
  - intros tok' Hne. rewrite ObjectId_str_oid. cbn [mbind result_bind].
    rewrite Hd, Htok. cbn [default].
    rewrite bool_decide_eq_false_2; [reflexivity|].
    intros [= Heq]. apply Hne. symmetry. exact Heq.
  - intros missing_id missing tok' Hid Hmissing. rewrite Hid.
    cbn [mbind result_bind].
    replace (find_one [("_id", VOid missing)] (users db')) with (@None document);
      [reflexivity|].
    symmetry. apply find_one_None. intros d' Hd'. rewrite matches_id.
    apply bool_decide_eq_false_2. apply Hmissing. exact Hd'.
Qed.

(** C3, counterexample: right after Alice's login, a [user_id] that
    does not exist and is not the text of an [ObjectId] makes
    [verify_auth_token] raise instead of returning false. *)
Lemma verify_auth_token_raises_after_register :
  MongoHandler.register_google_user Sample.draw1 Sample.alice_id "sub-alice"
    "alice@example.org" empty_db
  = (Ok "654f1a2b3c4d5e6f708192a3:0f1e2d3c4b5a69788796a5b4c3d2e1f0", Sample.db_alice)
  /\ MongoHandler.verify_auth_token "no-such-user" "0f1e2d3c4b5a69788796a5b4c3d2e1f0"
       Sample.db_alice
     = Raise (InvalidId "no-such-user")
  /\ MongoHandler.verify_auth_token "no-such-user" "0f1e2d3c4b5a69788796a5b4c3d2e1f0"
       Sample.db_alice <> Ok false.
Proof. split; [reflexivity | split; [reflexivity | discriminate]]. Qed.

(** ** Invariants of the reachable databases *)

Lemma register_google_user_conversations
    (entropy : list byte) (fresh : oid) (google_sub email : string) (db : database) :
  conversations (snd (MongoHandler.register_google_user entropy fresh google_sub email db))
  = conversations db.
Proof.
  destruct (MongoHandler.register_google_user entropy fresh google_sub email db)
    as [r db'] eqn:H.
  apply register_google_user_inv in H.
  destruct H as [(_ & -> & _) | (_ & _ & [(e & _ & _ & ->) | [(_ & _ & _ & ->) | (_ & _ & _ & ->)]])];
    reflexivity.
Qed.

Lemma reachable_conversation_ids (db : database) :
  reachable db -> NoDup (_id <$> conversations db).
Proof.
  induction 1 as [| entropy fresh google_sub email db _ IH
                  | fresh user_id suggestions db _ IH
                  | user_id conversation_id history db _ IH].
  - constructor.
  - rewrite register_google_user_conversations. exact IH.
  - unfold MongoHandler.new_conversation, insert_one.
    destruct (existsb _ (conversations db)) eqn:Hfresh; cbn [snd conversations];
      [exact IH|].
    rewrite fmap_app. apply NoDup_app. split; [exact IH|]. split.
    + intros o Ho Hnew. cbn in Hnew. apply list_elem_of_singleton in Hnew as ->.
      apply list_elem_of_fmap in Ho as (d & Hid & Hd).
      assert (existsb (fun d => bool_decide (_id d = fresh)) (conversations db) = true) as Ht.
      { apply existsb_exists. exists d. split; [apply list_elem_of_In; exact Hd|].
        apply bool_decide_eq_true_2. congruence. }
      congruence.
    + apply NoDup_singleton.
  - unfold MongoHandler.update_chat_history.
    destruct (ObjectId conversation_id); cbn [snd conversations]; [|exact IH].
    rewrite update_one_ids. exact IH.
Qed.





(** ** Ownership-scoped lookups *)

Lemma unique_id_same_document (c : collection) (d d' : document) :
  NoDup (_id <$> c) -> d ∈ c -> d' ∈ c -> _id d = _id d' -> d = d'.
Proof.
  induction c as [|x c IH]; intros Hnd Hd Hd' Hid; [inversion Hd|].
  rewrite fmap_cons in Hnd. apply NoDup_cons in Hnd as [Hx Hnd].
  apply elem_of_cons in Hd as [->|Hd]; apply elem_of_cons in Hd' as [->|Hd'].
  - reflexivity.
  - exfalso. apply Hx. rewrite Hid. apply list_elem_of_fmap. eauto.
  - exfalso. apply Hx. rewrite <- Hid. apply list_elem_of_fmap. eauto.
  - auto.
Qed.

(** No document carries the queried id. *)
Lemma owner_query_absent (o : oid) (user_id : string) (c : collection) :
  (forall d, d ∈ c -> _id d <> o) ->
  find_one [("_id", VOid o); ("user_id", VStr user_id)] c = None.
Proof.
  intros Habsent. apply find_one_None. intros d Hd.
  rewrite matches_id_and, bool_decide_eq_false_2 by (apply Habsent; exact Hd).
  reflexivity.
Qed.

(** The document carrying the queried id belongs to someone else. *)
Lemma owner_query_foreign (d : document) (owner other : string) (c : collection) :
  NoDup (_id <$> c) -> d ∈ c ->
  doc_get d "user_id" = Some (VStr owner) -> other <> owner ->
  find_one [("_id", VOid (_id d)); ("user_id", VStr other)] c = None.
Proof.
  intros Hnd Hd Howner Hne. apply find_one_None. intros d' Hd'.
  rewrite matches_id_and.
  destruct (bool_decide (_id d' = _id d)) eqn:Hid; [|reflexivity].
  apply bool_decide_eq_true in Hid.
  rewrite (unique_id_same_document c d' d Hnd Hd' Hd Hid).
  unfold matches; simpl. rewrite Howner, value_matches_str.
  rewrite bool_decide_eq_false_2 by congruence. reflexivity.
Qed.

(** C1, as the code has it: in a database the handler has built, take a
    conversation stored under [owner], another user, and a well-formed id
    no conversation carries.  For the other user, [get_chat_history] and
    [get_prompt_suggestions] raise on the owner's conversation id exactly
    the exception they raise on the absent id, and [verify_conversation]
    returns false on both. *)
Theorem foreign_conversation_as_absent
    (db : database) (d : document) (owner other : string)
    (conversation_id absent_id : string) (absent : oid) :
  reachable db ->
  d ∈ conversations db ->
  doc_get d "user_id" = Some (VStr owner) ->
  other <> owner ->
  ObjectId conversation_id = Ok (_id d) ->
  ObjectId absent_id = Ok absent ->
  (forall d', d' ∈ conversations db -> _id d' <> absent) ->
  MongoHandler.get_chat_history other conversation_id db
  = Raise (Exception "MongoDB error: " NoneNotSubscriptable)
  /\ MongoHandler.get_chat_history other absent_id db
     = MongoHandler.get_chat_history other conversation_id db
  /\ MongoHandler.get_prompt_suggestions other conversation_id db
     = Raise (Exception "MongoDB error: " NoneNotSubscriptable)
  /\ MongoHandler.get_prompt_suggestions other absent_id db
     = MongoHandler.get_prompt_suggestions other conversation_id db
  /\ MongoHandler.verify_conversation other conversation_id db = Ok false
  /\ MongoHandler.verify_conversation other absent_id db = Ok false.
Proof.
  intros Hreach Hd Howner Hne Hcid Habsent_id Habsent.
  pose proof (owner_query_foreign d owner other (conversations db)
                (reachable_conversation_ids db Hreach) Hd Howner Hne) as Hforeign.
  pose proof (owner_query_absent absent other (conversations db) Habsent) as Hnone.
  unfold MongoHandler.get_chat_history, MongoHandler.get_prompt_suggestions,
    MongoHandler.verify_conversation.
  rewrite Hcid, Habsent_id. cbn [mbind result_bind].
  rewrite Hforeign, Hnone. repeat split.
Qed.

(** C1, counterexample: for a conversation id that does not exist and
    is not the text of an [ObjectId], [verify_conversation] raises
    instead of returning false. *)
Lemma verify_conversation_raises_on_unknown_text :
  (forall d, d ∈ conversations Sample.db_conv -> str_oid (_id d) <> "no-such-conversation")
  /\ MongoHandler.verify_conversation (str_oid Sample.other_id) "no-such-conversation"
       Sample.db_conv
     = Raise (Exception "Error: " (InvalidId "no-such-conversation"))
  /\ MongoHandler.verify_conversation (str_oid Sample.other_id) "no-such-conversation"
       Sample.db_conv <> Ok false.
Proof.
  split; [|split; [reflexivity | discriminate]].
  intros d Hd.
  assert (conversations Sample.db_conv = [Sample.conv_doc]) as Hconv by reflexivity.
  rewrite Hconv in Hd. apply list_elem_of_singleton in Hd as ->. discriminate.
Qed.

(** ** The store handle *)

Lemma new_returns_instance (client : Type) (MongoClient : string -> result client)
    (uri : string) (p : Handle.process client) (h : nat) :
  Handle.cls_instance client p = Some h ->
  Handle.__new__ client MongoClient uri p = (Ok h, p).
Proof. intros H. unfold Handle.__new__. rewrite H. reflexivity. Qed.

(** C9: once a first call of [MongoHandler(uri)] has returned the handle,
    every later call, whatever uri it is given, returns that same handle
    and leaves the class state alone: the client and the database are
    still the ones the first call built from its uri. *)
Theorem connect_idempotent (client : Type) (MongoClient : string -> result client)
    (uri : string) (p p1 : Handle.process client) (h : nat) (later : list string) :
  Handle.cls_instance client p = None ->
  Handle.__new__ client MongoClient uri p = (Ok h, p1) ->
  Handle.calls client MongoClient later p1 = (map (fun _ => Ok h) later, p1)
  /\ exists c, MongoClient uri = Ok c
               /\ Handle.cls_client client p1 = Some c
               /\ Handle.cls_db client p1 = Some (c, "askage").
Proof.
  intros Hnone Hfirst. unfold Handle.__new__ in Hfirst. rewrite Hnone in Hfirst.
  destruct (MongoClient uri) as [c|e] eqn:Hc; [|discriminate].
  injection Hfirst as <- <-. split; [|exists c; auto].
  induction later as [|u later IH]; [reflexivity|].
  cbn [Handle.calls map].
  rewrite (new_returns_instance _ _ u _ (Handle.next_object client p)) by reflexivity.
  cbn [fst snd]. rewrite IH. reflexivity.
Qed.

(** * The theorems at sample data *)

(** C8 at an empty [google_sub]. *)
Lemma register_google_user_rejects_empty_witness :
  MongoHandler.register_google_user Sample.draw1 Sample.alice_id "" "alice@example.org"
    Sample.db_alice
  = (Raise BareException, Sample.db_alice).
Proof.
  apply (register_google_user_rejects_empty Sample.draw1 Sample.alice_id ""
           "alice@example.org" Sample.db_alice).
  left. reflexivity.
Defined.

(** C10 at a record stored without a token. *)
Lemma verify_auth_token_empty_for_tokenless_user_witness :
  MongoHandler.verify_auth_token "000000000000000000000001" "" Sample.db_tokenless = Ok true.
Proof.
  apply (verify_auth_token_empty_for_tokenless_user Sample.other_id Sample.tokenless_doc
           Sample.db_tokenless); reflexivity.
Defined.

(** C5 at Alice's first conversation. *)
Lemma new_conversation_then_read_witness :
  MongoHandler.get_chat_history (str_oid Sample.alice_id) "654f1a2b3c4d5e6f708192a4"
    Sample.db_conv
  = Ok (VMsgs [{| role := "system"; content := system_content |}])
  /\ MongoHandler.get_prompt_suggestions (str_oid Sample.alice_id)
       "654f1a2b3c4d5e6f708192a4" Sample.db_conv
     = Ok (VStrs ["s1"; "s2"]).
Proof.
  apply (new_conversation_then_read Sample.conv_id (str_oid Sample.alice_id) ["s1"; "s2"]
           Sample.db_alice Sample.db_conv "654f1a2b3c4d5e6f708192a4").
  reflexivity.
Defined.

(** C6 at Alice's conversation. *)
Lemma update_chat_history_then_get_witness :
  fst (MongoHandler.update_chat_history (str_oid Sample.alice_id)
         "654f1a2b3c4d5e6f708192a4" Sample.new_history Sample.db_conv) = Ok true
  /\ MongoHandler.get_chat_history (str_oid Sample.alice_id) "654f1a2b3c4d5e6f708192a4"
       (snd (MongoHandler.update_chat_history (str_oid Sample.alice_id)
               "654f1a2b3c4d5e6f708192a4" Sample.new_history Sample.db_conv))
     = Ok (VMsgs Sample.new_history).
Proof.
  pose proof (update_chat_history_then_get (str_oid Sample.alice_id)
                "654f1a2b3c4d5e6f708192a4" Sample.conv_id Sample.conv_doc
                Sample.new_history Sample.db_conv eq_refl eq_refl) as H.
  split; [exact (proj1 H) | exact (proj1 (proj2 H))].
Defined.

(** C7 at Alice's conversation, written to by another user. *)
Lemma update_chat_history_no_match_witness :
  MongoHandler.update_chat_history (str_oid Sample.other_id) "654f1a2b3c4d5e6f708192a4"
    Sample.new_history Sample.db_conv
  = (Ok false, Sample.db_conv).
Proof.
  apply (update_chat_history_no_match (str_oid Sample.other_id)
           "654f1a2b3c4d5e6f708192a4" Sample.conv_id Sample.new_history Sample.db_conv);
    reflexivity.
Defined.

(** C3 at Alice's first login. *)
Lemma verify_auth_token_after_register_witness :
  exists user_id : oid,
    MongoHandler.verify_auth_token (str_oid user_id) "0f1e2d3c4b5a69788796a5b4c3d2e1f0"
      Sample.db_alice = Ok true
    /\ MongoHandler.verify_auth_token (str_oid user_id) "0f1e2d3c4b5a69788796a5b4c3d2e1f1"
         Sample.db_alice = Ok false.
Proof.
  destruct (verify_auth_token_after_register Sample.draw1 Sample.alice_id "sub-alice"
              "alice@example.org" empty_db Sample.db_alice
              "654f1a2b3c4d5e6f708192a3:0f1e2d3c4b5a69788796a5b4c3d2e1f0" eq_refl)
    as (user_id & _ & Hsame & Hother & _).
  exists user_id. split; [exact Hsame|].
  apply Hother. discriminate.
Defined.


(** C1 at Alice's conversation, read by another user. *)
Lemma foreign_conversation_as_absent_witness :
  MongoHandler.get_chat_history (str_oid Sample.other_id) "654F1A2B3C4D5E6F708192A4"
    Sample.db_conv
  = Raise (Exception "MongoDB error: " NoneNotSubscriptable)
  /\ MongoHandler.verify_conversation (str_oid Sample.other_id)
       "654F1A2B3C4D5E6F708192A4" Sample.db_conv = Ok false
  /\ MongoHandler.verify_conversation (str_oid Sample.other_id)
       "000000000000000000000001" Sample.db_conv = Ok false.
Proof.
  pose proof (foreign_conversation_as_absent Sample.db_conv Sample.conv_doc
                (str_oid Sample.alice_id) (str_oid Sample.other_id)
                "654F1A2B3C4D5E6F708192A4" "000000000000000000000001"
                Sample.other_id) as H.
  assert (conversations Sample.db_conv = [Sample.conv_doc]) as Hconv by reflexivity.
  destruct H as (Hhist & _ & _ & _ & Hverify & Habsent).
  - apply reach_new_conversation, reach_register, reach_empty.
  - rewrite Hconv. apply list_elem_of_singleton. reflexivity.
  - reflexivity.
  - discriminate.
  - reflexivity.
  - reflexivity.
  - intros d' Hd'. rewrite Hconv in Hd'. apply list_elem_of_singleton in Hd' as ->.
    discriminate.
  - split; [exact Hhist | split; [exact Hverify | exact Habsent]].
Defined.

(** C9 at a first connection followed by two more. *)
Lemma connect_idempotent_witness :
  Handle.calls string Sample.MongoClient ["mongodb://elsewhere"; ""]
    (snd (Handle.__new__ string Sample.MongoClient "mongodb://localhost"
            (Handle.start string)))
  = ([Ok 0; Ok 0],
     snd (Handle.__new__ string Sample.MongoClient "mongodb://localhost"
            (Handle.start string))).
Proof.
  apply (connect_idempotent string Sample.MongoClient "mongodb://localhost"
           (Handle.start string)
           (snd (Handle.__new__ string Sample.MongoClient "mongodb://localhost"
                   (Handle.start string)))
           0 ["mongodb://elsewhere"; ""]); reflexivity.
Defined.

(** * Further properties of the handler *)

(** ** More about collections *)


Lemma update_one_length (q upd : list (string * value)) (c : collection) :
  length (snd (update_one q upd c)) = length c.
Proof.
  rewrite <- (length_fmap _id), update_one_ids. apply length_fmap.
Qed.

Lemma update_one_Forall (P : document -> Prop) (q upd : list (string * value))
    (c : collection) :
  (forall d, P d -> P (apply_set upd d)) ->
  Forall P c -> Forall P (snd (update_one q upd c)).
Proof.
  intros Hupd. induction 1 as [|d c Hd Hc IH]; simpl; [constructor|].
  destruct (matches q d); simpl; constructor; auto.
Qed.

Lemma find_one_unique_id (c : collection) (d : document) :
  NoDup (_id <$> c) -> d ∈ c -> find_one [("_id", VOid (_id d))] c = Some d.
Proof.
  intros Hnd Hd.
  destruct (find_one_is_Some [("_id", VOid (_id d))] c d Hd) as [d' Hd'].
  { rewrite matches_id. apply bool_decide_eq_true_2. reflexivity. }
  rewrite Hd'. f_equal. apply find_one_Some in Hd' as [Hin Hm].
  rewrite matches_id in Hm. apply bool_decide_eq_true in Hm.
  apply (unique_id_same_document c d' d Hnd Hin Hd Hm).
Qed.

Lemma insert_fresh_ids (fresh : oid) (flds : gmap string value) (c : collection) :
  existsb (fun d => bool_decide (_id d = fresh)) c = false ->
  NoDup (_id <$> c) ->
  NoDup (_id <$> (c ++ [{| _id := fresh; fields := flds |}])).
Proof.
  intros Hfresh Hnd. rewrite fmap_app. apply NoDup_app.
  split; [exact Hnd|]. split; [|apply NoDup_singleton].
  intros o Ho Hnew. cbn in Hnew. apply list_elem_of_singleton in Hnew as ->.
  apply list_elem_of_fmap in Ho as (d & Hid & Hd).
  assert (existsb (fun d => bool_decide (_id d = fresh)) c = true) as Ht.
  { apply existsb_exists. exists d. split; [apply list_elem_of_In; exact Hd|].
    apply bool_decide_eq_true_2. congruence. }
  congruence.
Qed.

Lemma doc_get_login_update (tok email : string) (d : document) :
  doc_get (apply_set [("session_token", VStr tok); ("email", VStr email)] d) "session_token"
  = Some (VStr tok)
  /\ doc_get (apply_set [("session_token", VStr tok); ("email", VStr email)] d) "email"
     = Some (VStr email)
  /\ doc_get (apply_set [("session_token", VStr tok); ("email", VStr email)] d) "google_sub"
     = doc_get d "google_sub".
Proof.
  unfold doc_get, apply_set; simpl. repeat split.
  - rewrite lookup_insert_ne by discriminate. apply lookup_insert_eq.
  - apply lookup_insert_eq.
  - rewrite !lookup_insert_ne by discriminate. reflexivity.
Qed.

(** ** Invariants of the users collection *)

Lemma reachable_user_ids (db : database) :
  reachable db -> NoDup (_id <$> users db).
Proof.
  induction 1 as [| entropy fresh google_sub email db _ IH
                  | fresh user_id suggestions db _ IH
                  | user_id conversation_id history db _ IH].
  - constructor.
  - destruct (MongoHandler.register_google_user entropy fresh google_sub email db)
      as [r db'] eqn:H.
    apply register_google_user_inv in H. cbn [snd].
    destruct H as [(_ & -> & _) | (_ & _ & [(e & _ & _ & ->) | [(_ & _ & _ & ->) | (_ & Hfresh & _ & ->)]])];
      try exact IH; cbn [users].
    + rewrite update_one_ids. exact IH.
    + apply insert_fresh_ids; assumption.
  - exact IH.
  - unfold MongoHandler.update_chat_history.
    destruct (ObjectId conversation_id); exact IH.
Qed.

Lemma reachable_users_Forall (db : database) :
  reachable db -> Forall user_record_ok (users db).
Proof.
  induction 1 as [| entropy fresh google_sub email db _ IH
                  | fresh user_id suggestions db _ IH
                  | user_id conversation_id history db _ IH].
  - constructor.
  - destruct (MongoHandler.register_google_user entropy fresh google_sub email db)
      as [r db'] eqn:H.
    apply register_google_user_inv in H. cbn [snd].
    destruct H as [(_ & -> & _) | (Hs & He & [(e & _ & _ & ->) | [(_ & _ & _ & ->) | (_ & _ & _ & ->)]])];
      try exact IH; cbn [users].
    + apply update_one_Forall; [|exact IH].
      intros d (sub & em & tok & Hsub & Hne & _).
      destruct (doc_get_login_update (MongoHandler.generate_session_token entropy) email d)
        as (Ht & Hm & Hg).
      exists sub, email, (MongoHandler.generate_session_token entropy).
      rewrite Hg. auto.
    + apply Forall_app. split; [exact IH|]. constructor; [|constructor].
      exists google_sub, email, (MongoHandler.generate_session_token entropy).
      unfold doc_get, new_user_fields; simpl.
      rewrite lookup_insert_eq.
      rewrite (lookup_insert_ne _ "google_sub" "email") by discriminate.
      rewrite (lookup_insert_ne _ "session_token" "email") by discriminate.
      rewrite lookup_insert_eq.
      rewrite (lookup_insert_ne _ "google_sub" "session_token") by discriminate.
      rewrite lookup_insert_eq. auto.
  - exact IH.
  - unfold MongoHandler.update_chat_history.
    destruct (ObjectId conversation_id); exact IH.
Qed.

(** X1: every user record of a database the handler has built carries
    [google_sub], [email] and [session_token] as strings, the first two
    not empty: the argument check of [register_google_user] keeps empty
    values out of the store. *)
Theorem reachable_users_well_formed (db : database) (d : document) :
  reachable db -> d ∈ users db -> user_record_ok d.
Proof.
  intros Hreach. revert d. apply Forall_forall.
  apply reachable_users_Forall. exact Hreach.
Qed.

(** X1 at Alice's record after her first login. *)
Lemma reachable_users_well_formed_witness : user_record_ok Sample.alice_doc.
Proof.
  apply (reachable_users_well_formed Sample.db_alice Sample.alice_doc).
  - apply reach_register, reach_empty.
  - assert (users Sample.db_alice = [Sample.alice_doc]) as -> by reflexivity.
    apply list_elem_of_singleton. reflexivity.
Defined.

(** ** Logging in *)

Lemma sub_query_reads_sub (google_sub : string) (d : document) :
  user_record_ok d ->
  matches [("google_sub", VStr google_sub)] d = true ->
  doc_get d "google_sub" = Some (VStr google_sub).
Proof.
  intros (sub & em & tok & Hsub & _) Hm.
  unfold matches in Hm; simpl in Hm. rewrite Hsub, value_matches_str in Hm.
  rewrite andb_true_r in Hm. apply bool_decide_eq_true in Hm as ->. exact Hsub.
Qed.

(** X2: after a successful registration in a database the handler has
    built, the record a lookup by [google_sub] finds is the one named in
    the credential, and it holds that [google_sub], the email just
    passed in (overwriting any earlier one) and the new token. *)
Theorem register_google_user_stores_login
    (entropy : list byte) (fresh : oid) (google_sub email : string)
    (db db' : database) (cred : string) :
  reachable db ->
  MongoHandler.register_google_user entropy fresh google_sub email db = (Ok cred, db') ->
  exists d,
    find_one [("google_sub", VStr google_sub)] (users db') = Some d
    /\ cred = credential (_id d) (MongoHandler.generate_session_token entropy)
    /\ doc_get d "google_sub" = Some (VStr google_sub)
    /\ doc_get d "email" = Some (VStr email)
    /\ doc_get d "session_token"
       = Some (VStr (MongoHandler.generate_session_token entropy)).
Proof.
  intros Hreach H. apply register_google_user_inv in H.
  destruct H as [(H & _) | (Hs & He & [(e & Hfind & Hr & ->) | [(_ & _ & Hr & _) | (Hfind & Hfresh & Hr & ->)]])];
    try discriminate; injection Hr as ->; cbn [users].
  - destruct (find_one_Some _ _ _ Hfind) as [Hin Hm].
    exists (apply_set [("session_token", VStr (MongoHandler.generate_session_token entropy));
                       ("email", VStr email)] e).
    destruct (doc_get_login_update (MongoHandler.generate_session_token entropy) email e)
      as (Ht & Hem & Hg).
    split; [|split; [reflexivity|split; [|split; assumption]]].
    + rewrite find_one_update_one by (intros; apply login_update_keeps_sub_query).
      rewrite Hfind.
      rewrite (find_one_unique_id _ _ (reachable_user_ids db Hreach) Hin).
      rewrite bool_decide_eq_true_2 by reflexivity. reflexivity.
    + rewrite Hg. apply sub_query_reads_sub; [|exact Hm].
      apply (proj1 (Forall_forall _ _) (reachable_users_Forall db Hreach)). exact Hin.
  - eexists. split.
    + apply find_one_app_None; [exact Hfind|].
      rewrite new_user_matches_sub. apply bool_decide_eq_true_2. reflexivity.
    + split; [reflexivity|]. unfold doc_get, new_user_fields; simpl.
      split; [apply lookup_insert_eq|]. split.
      * rewrite !lookup_insert_ne by discriminate. apply lookup_insert_eq.
      * rewrite lookup_insert_ne by discriminate. apply lookup_insert_eq.
Qed.

(** X2 at Alice's second login, with a new email. *)
Lemma register_google_user_stores_login_witness :
  exists d,
    find_one [("google_sub", VStr "sub-alice")] (users Sample.db_alice2) = Some d
    /\ doc_get d "email" = Some (VStr "alice@example.com").
Proof.
  destruct (register_google_user_stores_login Sample.draw2 Sample.other_id "sub-alice"
              "alice@example.com" Sample.db_alice Sample.db_alice2
              "654f1a2b3c4d5e6f708192a3:101e2d3c4b5a69788796a5b4c3d2e1f0")
    as (d & Hd & _ & _ & Hemail & _).
  - apply reach_register, reach_empty.
  - reflexivity.
  - exists d. split; [exact Hd | exact Hemail].
Defined.

Lemma verify_auth_token_found (o : oid) (d : document) (tok presented : string)
    (db : database) :
  find_one [("_id", VOid o)] (users db) = Some d ->
  doc_get d "session_token" = Some (VStr tok) ->
  MongoHandler.verify_auth_token (str_oid o) presented db
  = Ok (bool_decide (tok = presented)).
Proof.
  intros Hd Htok. unfold MongoHandler.verify_auth_token.
  rewrite ObjectId_str_oid. cbn [mbind result_bind]. rewrite Hd, Htok. simpl.
  f_equal. apply bool_decide_ext. split; congruence.
Qed.

(** X3: a second login with the same [google_sub] retires the first
    credential: once it has returned, the token of the first login no
    longer verifies for that user and the token of the second does (the
    two draws of the random source being different). *)
Theorem relogin_invalidates_old_token
    (entropy1 entropy2 : list byte) (fresh1 fresh2 : oid)
    (google_sub email1 email2 : string) (db db1 db2 : database)
    (cred1 : string) (r2 : result string) :
  MongoHandler.register_google_user entropy1 fresh1 google_sub email1 db = (Ok cred1, db1) ->
  MongoHandler.register_google_user entropy2 fresh2 google_sub email2 db1 = (r2, db2) ->
  email2 <> "" ->
  entropy1 <> entropy2 ->
  exists user_id : oid,
    cred1 = credential user_id (MongoHandler.generate_session_token entropy1)
    /\ r2 = Ok (credential user_id (MongoHandler.generate_session_token entropy2))
    /\ MongoHandler.verify_auth_token (str_oid user_id)
         (MongoHandler.generate_session_token entropy1) db2 = Ok false
    /\ MongoHandler.verify_auth_token (str_oid user_id)
         (MongoHandler.generate_session_token entropy2) db2 = Ok true.
Proof.
  intros H1 H2 Hemail Hdraws.
  destruct (register_google_user_ok _ _ _ _ _ _ _ H1)
    as (uid & Hcred & Hsub & (d & Hd & Hid) & _ & _).
  pose proof H2 as H2'. apply register_google_user_inv in H2'.
  destruct H2' as [(_ & _ & [Hbad | Hbad]) | (_ & _ & [(e & Hfind & -> & Hdb2) | [(Hnone & _) | (Hnone & _)]])];
    try contradiction; try congruence.
  assert (_id e = uid) as Heq by congruence. rewrite Heq in *.
  destruct (register_google_user_ok _ _ _ _ _ _ _ H2)
    as (uid2 & Hcred2 & _ & _ & (d2 & Hd2 & Htok2) & Hsame).
  assert (uid2 = uid) as -> by (rewrite <- (Hsame e Hfind); exact Heq).
  exists uid. split; [exact Hcred|]. split; [reflexivity|].
  rewrite !(verify_auth_token_found uid d2 _ _ db2 Hd2 Htok2). split.
  - rewrite bool_decide_eq_false_2; [reflexivity|].
    unfold MongoHandler.generate_session_token. intros Heq'.
    apply hex_inj in Heq'. congruence.
  - rewrite bool_decide_eq_true_2 by reflexivity. reflexivity.
Qed.

(** X3 at Alice's two logins. *)
Lemma relogin_invalidates_old_token_witness :
  exists user_id : oid,
    MongoHandler.verify_auth_token (str_oid user_id) "0f1e2d3c4b5a69788796a5b4c3d2e1f0"
      Sample.db_alice2 = Ok false
    /\ MongoHandler.verify_auth_token (str_oid user_id) "101e2d3c4b5a69788796a5b4c3d2e1f0"
         Sample.db_alice2 = Ok true.
Proof.
  destruct (relogin_invalidates_old_token Sample.draw1 Sample.draw2 Sample.alice_id
              Sample.other_id "sub-alice" "alice@example.org" "alice@example.com"
              empty_db Sample.db_alice Sample.db_alice2
              "654f1a2b3c4d5e6f708192a3:0f1e2d3c4b5a69788796a5b4c3d2e1f0"
              (Ok "654f1a2b3c4d5e6f708192a3:101e2d3c4b5a69788796a5b4c3d2e1f0"))
    as (user_id & _ & _ & Hold & Hnew).
  - reflexivity.
  - reflexivity.
  - discriminate.
  - discriminate.
  - exists user_id. split; [exact Hold | exact Hnew].
Defined.



(** X5: [register_google_user] writes all or nothing.  When it raises,
    the database is the one it was given; when it returns, the users
    collection has one record more if no record carried the
    [google_sub], and as many as before otherwise; the conversations are
    never touched. *)
Theorem register_google_user_effect
    (entropy : list byte) (fresh : oid) (google_sub email : string)
    (db db' : database) (r : result string) :
  MongoHandler.register_google_user entropy fresh google_sub email db = (r, db') ->
  conversations db' = conversations db
  /\ match r, find_one [("google_sub", VStr google_sub)] (users db) with
     | Raise _, _ => db' = db
     | Ok _, Some _ => length (users db') = length (users db)
     | Ok _, None => length (users db') = S (length (users db))
     end.
Proof.
  intros H. apply register_google_user_inv in H.
  destruct H as [(-> & -> & _) | (_ & _ & [(e & -> & -> & ->) | [(-> & _ & -> & ->) | (-> & _ & -> & ->)]])];
    cbn [users conversations]; (split; [reflexivity|]); try reflexivity.
  - apply update_one_length.
  - rewrite length_app. cbn [length]. lia.
Qed.

(** X5 at Alice's second login: still one record. *)
Lemma register_google_user_effect_witness :
  length (users Sample.db_alice2) = length (users Sample.db_alice).
Proof.
  exact (proj2 (register_google_user_effect Sample.draw2 Sample.other_id "sub-alice"
                  "alice@example.com" Sample.db_alice Sample.db_alice2
                  (Ok "654f1a2b3c4d5e6f708192a3:101e2d3c4b5a69788796a5b4c3d2e1f0") eq_refl)).
Defined.

(** ** Conversations: errors, guards and frames *)

(** X6: on a [conversation_id] whose length is not 24, or that holds a
    character that is neither a hexadecimal digit nor whitespace, every
    conversation method raises the generic exception that wraps the
    [InvalidId] of [ObjectId] (prefix [MongoDB error: ], or [Error: ]
    for [verify_conversation]), before any lookup;
    [update_chat_history] leaves the database as it was. *)
Theorem malformed_conversation_id
    (user_id conversation_id : string) (history : list message) (db : database) :
  String.length conversation_id <> 24 \/ has_foreign_char conversation_id = true ->
  MongoHandler.get_chat_history user_id conversation_id db
  = Raise (Exception "MongoDB error: " (InvalidId conversation_id))
  /\ MongoHandler.get_prompt_suggestions user_id conversation_id db
     = Raise (Exception "MongoDB error: " (InvalidId conversation_id))
  /\ MongoHandler.verify_conversation user_id conversation_id db
     = Raise (Exception "Error: " (InvalidId conversation_id))
  /\ MongoHandler.update_chat_history user_id conversation_id history db
     = (Raise (Exception "MongoDB error: " (InvalidId conversation_id)), db).
Proof.
  intros Hbad. apply ObjectId_rejects in Hbad.
  unfold MongoHandler.get_chat_history, MongoHandler.get_prompt_suggestions,
    MongoHandler.verify_conversation, MongoHandler.update_chat_history.
  rewrite Hbad. repeat split.
Qed.

(** X6 at an id one digit short. *)
Lemma malformed_conversation_id_witness :
  MongoHandler.verify_conversation (str_oid Sample.alice_id) "654f1a2b3c4d5e6f708192a"
    Sample.db_conv
  = Raise (Exception "Error: " (InvalidId "654f1a2b3c4d5e6f708192a"))
  /\ MongoHandler.update_chat_history (str_oid Sample.alice_id) "654f1a2b3c4d5e6f708192a"
       Sample.new_history Sample.db_conv
     = (Raise (Exception "MongoDB error: " (InvalidId "654f1a2b3c4d5e6f708192a")),
        Sample.db_conv).
Proof.
  destruct (malformed_conversation_id (str_oid Sample.alice_id) "654f1a2b3c4d5e6f708192a"
              Sample.new_history Sample.db_conv) as (_ & _ & Hverify & Hupdate).
  - left. simpl. lia.
  - split; [exact Hverify | exact Hupdate].
Defined.

Lemma history_update_keeps_record (history : list message) (d : document) :
  conversation_record_ok d ->
  conversation_record_ok (apply_set [("history", VMsgs history)] d).
Proof.
  intros (u & h & sg & Hu & Hh & Hs). exists u, history, sg.
  rewrite (doc_get_apply_set_other _ d "user_id")
    by (simpl; rewrite not_elem_of_cons; split; [discriminate | apply not_elem_of_nil]).
  rewrite (doc_get_apply_set_other _ d "prompt_suggestions")
    by (simpl; rewrite not_elem_of_cons; split; [discriminate | apply not_elem_of_nil]).
  split; [exact Hu|]. split; [|exact Hs].
  unfold doc_get, apply_set; simpl. apply lookup_insert_eq.
Qed.

Lemma reachable_conversations_Forall (db : database) :
  reachable db -> Forall conversation_record_ok (conversations db).
Proof.
  induction 1 as [| entropy fresh google_sub email db _ IH
                  | fresh user_id suggestions db _ IH
                  | user_id conversation_id history db _ IH].
  - constructor.
  - rewrite register_google_user_conversations. exact IH.
  - unfold MongoHandler.new_conversation, insert_one.
    destruct (existsb _ (conversations db)); cbn [snd conversations]; [exact IH|].
    apply Forall_app. split; [exact IH|]. constructor; [|constructor].
    exists user_id, [system_message], suggestions.
    unfold doc_get; simpl. split; [apply lookup_insert_eq|]. split.
    + rewrite lookup_insert_ne by discriminate. apply lookup_insert_eq.
    + rewrite !lookup_insert_ne by discriminate. apply lookup_insert_eq.
  - unfold MongoHandler.update_chat_history.
    destruct (ObjectId conversation_id); cbn [snd conversations]; [|exact IH].
    apply update_one_Forall; [|exact IH].
    intros d. apply history_update_keeps_record.
Qed.

(** X7: in a database the handler has built, [verify_conversation]
    tells in advance what the reads do.  When it returns true, both
    [get_chat_history] and [get_prompt_suggestions] return (a message
    list and a string list); when it returns false, both raise the
    generic exception of a lookup that found nothing; when it raises,
    both raise on the malformed id. *)
Theorem verify_conversation_guards_reads
    (user_id conversation_id : string) (db : database) :
  reachable db ->
  match MongoHandler.verify_conversation user_id conversation_id db with
  | Ok true =>
      exists history suggestions,
        MongoHandler.get_chat_history user_id conversation_id db = Ok (VMsgs history)
        /\ MongoHandler.get_prompt_suggestions user_id conversation_id db
           = Ok (VStrs suggestions)
  | Ok false =>
      MongoHandler.get_chat_history user_id conversation_id db
      = Raise (Exception "MongoDB error: " NoneNotSubscriptable)
      /\ MongoHandler.get_prompt_suggestions user_id conversation_id db
         = Raise (Exception "MongoDB error: " NoneNotSubscriptable)
  | Raise _ =>
      MongoHandler.get_chat_history user_id conversation_id db
      = Raise (Exception "MongoDB error: " (InvalidId conversation_id))
      /\ MongoHandler.get_prompt_suggestions user_id conversation_id db
         = Raise (Exception "MongoDB error: " (InvalidId conversation_id))
  end.
Proof.
  intros Hreach.
  unfold MongoHandler.verify_conversation, MongoHandler.get_chat_history,
    MongoHandler.get_prompt_suggestions.
  destruct (ObjectId conversation_id) as [o|e] eqn:Ho; cbn [mbind result_bind try_except].
  - destruct (find_one _ (conversations db)) as [d|] eqn:Hd.
    + rewrite bool_decide_eq_true_2 by discriminate.
      apply find_one_Some in Hd as [Hin _].
      pose proof (proj1 (Forall_forall _ _) (reachable_conversations_Forall db Hreach) d Hin)
        as (u & h & sg & _ & Hh & Hs).
      exists h, sg. unfold subscript. rewrite Hh, Hs. split; reflexivity.
    + rewrite bool_decide_eq_false_2 by (intros Hc; apply Hc; reflexivity).
      split; reflexivity.
  - apply ObjectId_Raise in Ho as ->. split; reflexivity.
Qed.

(** X7 at Alice's conversation. *)
Lemma verify_conversation_guards_reads_witness :
  exists history suggestions,
    MongoHandler.get_chat_history (str_oid Sample.alice_id) "654f1a2b3c4d5e6f708192a4"
      Sample.db_conv = Ok (VMsgs history)
    /\ MongoHandler.get_prompt_suggestions (str_oid Sample.alice_id)
         "654f1a2b3c4d5e6f708192a4" Sample.db_conv = Ok (VStrs suggestions).
Proof.
  exact (verify_conversation_guards_reads (str_oid Sample.alice_id)
           "654f1a2b3c4d5e6f708192a4" Sample.db_conv
           (reach_new_conversation _ _ _ _ (reach_register _ _ _ _ _ reach_empty))).
Defined.

(** X8: [update_chat_history] reports exactly what
    [verify_conversation] would have answered on the database it was
    given: the same boolean, or an exception where that one raises. *)
Theorem update_chat_history_reports_ownership
    (user_id conversation_id : string) (history : list message) (db : database) :
  match MongoHandler.verify_conversation user_id conversation_id db with
  | Ok owned =>
      fst (MongoHandler.update_chat_history user_id conversation_id history db) = Ok owned
  | Raise _ =>
      fst (MongoHandler.update_chat_history user_id conversation_id history db)
      = Raise (Exception "MongoDB error: " (InvalidId conversation_id))
  end.
Proof.
  unfold MongoHandler.verify_conversation, MongoHandler.update_chat_history.
  destruct (ObjectId conversation_id) as [o|e] eqn:Ho; cbn [mbind result_bind try_except fst].
  - rewrite update_one_matched.
    destruct (find_one _ (conversations db)).
    + rewrite bool_decide_eq_true_2 by discriminate. reflexivity.
    + rewrite bool_decide_eq_false_2 by (intros Hc; apply Hc; reflexivity). reflexivity.
  - apply ObjectId_Raise in Ho as ->. reflexivity.
Qed.

Lemma find_one_after_history_update (q' q : list (string * value))
    (history : list message) (c : collection) :
  (forall k, k ∈ q'.*1 -> k <> "history") ->
  find_one q' (snd (update_one q [("history", VMsgs history)] c)) = None
  /\ find_one q' c = None
  \/ exists d, find_one q' c = Some d
     /\ (find_one q' (snd (update_one q [("history", VMsgs history)] c)) = Some d
         \/ find_one q c = Some d
            /\ find_one q' (snd (update_one q [("history", VMsgs history)] c))
               = Some (apply_set [("history", VMsgs history)] d)).
Proof.
  intros Hkeys.
  rewrite find_one_update_one.
  - destruct (find_one q' c) as [d|]; [right; exists d; split; [reflexivity|] | left; auto].
    destruct (bool_decide (find_one q c = Some d)) eqn:Hb; [right | left; reflexivity].
    apply bool_decide_eq_true in Hb. auto.
  - intros d. apply matches_apply_set. intros k Hk. simpl.
    rewrite not_elem_of_cons. split; [apply Hkeys; exact Hk | apply not_elem_of_nil].
Qed.

Lemma owner_query_keys (binary : object_id) (user_id : string) (k : string) :
  k ∈ [("_id", VOid binary); ("user_id", VStr user_id)].*1 -> k <> "history".
Proof.
  simpl. rewrite !elem_of_cons. intros [->|[->|Hk]]; [discriminate..|inversion Hk].
Qed.

(** X9: [update_chat_history] changes neither who owns what nor any
    suggestion list: for every user and every conversation id,
    [verify_conversation] and [get_prompt_suggestions] give after the
    update what they gave before; the users are untouched. *)
Theorem update_chat_history_keeps_ownership_and_suggestions
    (user_id conversation_id : string) (history : list message) (db : database)
    (any_user any_id : string) :
  let db' := snd (MongoHandler.update_chat_history user_id conversation_id history db) in
  MongoHandler.verify_conversation any_user any_id db'
  = MongoHandler.verify_conversation any_user any_id db
  /\ MongoHandler.get_prompt_suggestions any_user any_id db'
     = MongoHandler.get_prompt_suggestions any_user any_id db
  /\ users db' = users db.
Proof.
  unfold MongoHandler.update_chat_history.
  destruct (ObjectId conversation_id) as [o|e]; cbn [snd]; [|auto].
  unfold MongoHandler.verify_conversation, MongoHandler.get_prompt_suggestions.
  destruct (ObjectId any_id) as [o'|e']; cbn [mbind result_bind conversations users]; [|auto].
  destruct (find_one_after_history_update
              [("_id", VOid o'); ("user_id", VStr any_user)]
              [("_id", VOid o); ("user_id", VStr user_id)] history (conversations db)
              (owner_query_keys o' any_user))
    as [[-> ->] | (d & -> & [-> | [_ ->]])]; try auto.
  repeat split. unfold subscript.
  rewrite doc_get_apply_set_other; [reflexivity|].
  simpl. rewrite not_elem_of_cons. split; [discriminate | apply not_elem_of_nil].
Qed.



Lemma update_one_twice (q : list (string * value)) (h1 h2 : list message)
    (c : collection) :
  (forall k, k ∈ q.*1 -> k <> "history") ->
  update_one q [("history", VMsgs h2)] (snd (update_one q [("history", VMsgs h1)] c))
  = update_one q [("history", VMsgs h2)] c.
Proof.
  intros Hkeys.
  assert (forall h d, matches q (apply_set [("history", VMsgs h)] d) = matches q d) as Hm.
  { intros h d. apply matches_apply_set. intros k Hk. simpl.
    rewrite not_elem_of_cons. split; [apply Hkeys; exact Hk | apply not_elem_of_nil]. }
  induction c as [|d c IH]; [reflexivity|].
  cbn [update_one]. destruct (matches q d) eqn:Hd; cbn [fst snd update_one].
  - rewrite Hm, Hd. unfold apply_set; simpl. rewrite insert_insert_eq. reflexivity.
  - rewrite Hd, IH. reflexivity.
Qed.

(** X11: the last write wins.  Two successive [update_chat_history]
    calls for the same user and conversation id leave the database, and
    return the result, of the second call alone. *)
Theorem update_chat_history_last_write_wins
    (user_id conversation_id : string) (h1 h2 : list message) (db : database) :
  MongoHandler.update_chat_history user_id conversation_id h2
    (snd (MongoHandler.update_chat_history user_id conversation_id h1 db))
  = MongoHandler.update_chat_history user_id conversation_id h2 db.
Proof.
  unfold MongoHandler.update_chat_history.
  destruct (ObjectId conversation_id) as [o|e]; cbn [snd users conversations];
    [|reflexivity].
  rewrite update_one_twice by apply owner_query_keys. reflexivity.
Qed.



(** X13: [new_conversation] never looks at the users.  Whatever
    [user_id] it is given, it succeeds when the generated id is unused,
    returning that id in text form, adding one conversation, and
    [verify_conversation] then holds for that [user_id]; when the store
    refuses the id it raises the wrapped exception and stores nothing. *)
Theorem new_conversation_outcome
    (fresh : oid) (user_id : string) (suggestions : list string) (db : database) :
  let r := MongoHandler.new_conversation fresh user_id suggestions db in
  if existsb (fun d => bool_decide (_id d = fresh)) (conversations db)
  then r = (Raise (Exception "MongoDB error: " (DuplicateKeyError fresh)), db)
  else fst r = Ok (str_oid fresh)
       /\ length (conversations (snd r)) = S (length (conversations db))
       /\ MongoHandler.verify_conversation user_id (str_oid fresh) (snd r) = Ok true.
Proof.
  unfold MongoHandler.new_conversation, insert_one.
  destruct (existsb _ (conversations db)) eqn:Hfresh; cbn [fst snd].
  - destruct db; reflexivity.
  - split; [reflexivity|]. cbn [conversations]. split.
    + rewrite length_app. cbn [length]. lia.
    + unfold MongoHandler.verify_conversation. rewrite ObjectId_str_oid.
      cbn [mbind result_bind conversations].
      rewrite (find_one_app_None _ _ _ (find_one_id_fresh _ _ _ Hfresh)).
      * reflexivity.
      * rewrite matches_id_and. cbn [_id].
        rewrite bool_decide_eq_true_2 by reflexivity.
        unfold matches, doc_get; simpl. rewrite lookup_insert_eq.
        rewrite value_matches_refl_str. reflexivity.
Qed.

(** ** Tokens and credentials *)

Lemma hex_digits (l : list byte) :
  String.length (Hex.hex l) = 2 * length l
  /\ forallb is_lower_hex_digit (list_ascii_of_string (Hex.hex l)) = true.
Proof.
  induction l as [|b l [IHlen IHhex]]; [split; reflexivity|].
  cbn [Hex.hex String.length list_ascii_of_string forallb length].
  rewrite IHlen, IHhex. split; [lia|].
  rewrite andb_true_r. destruct b; reflexivity.
Qed.

(** X14: a session token is twice as long as the bytes drawn, so 32
    characters for the 16 bytes of [token_hex(16)]; it is written in
    lower-case hexadecimal digits; and different draws give different
    tokens. *)
Theorem session_token_format (entropy other : list byte) :
  String.length (MongoHandler.generate_session_token entropy) = 2 * length entropy
  /\ forallb is_lower_hex_digit
       (list_ascii_of_string (MongoHandler.generate_session_token entropy)) = true
  /\ (MongoHandler.generate_session_token entropy
      = MongoHandler.generate_session_token other -> entropy = other).
Proof.
  unfold MongoHandler.generate_session_token.
  destruct (hex_digits entropy) as [Hlen Hhex].
  split; [exact Hlen|]. split; [exact Hhex | apply hex_inj].
Qed.

Lemma str_oid_inj (o1 o2 : oid) : str_oid o1 = str_oid o2 -> o1 = o2.
Proof.
  unfold str_oid. intros H. apply hex_inj in H.
  destruct o1 as [[[[[[[[[[[a0 a1] a2] a3] a4] a5] a6] a7] a8] a9] a10] a11].
  destruct o2 as [[[[[[[[[[[b0 b1] b2] b3] b4] b5] b6] b7] b8] b9] b10] b11].
  cbn [oid_bytes] in H. congruence.
Qed.

Lemma str_oid_length (o : oid) : String.length (str_oid o) = 24.
Proof.
  unfold str_oid. rewrite (proj1 (hex_digits _)).
  destruct o as [[[[[[[[[[[b0 b1] b2] b3] b4] b5] b6] b7] b8] b9] b10] b11].
  reflexivity.
Qed.

Lemma append_same_length (p1 p2 s1 s2 : string) :
  String.length p1 = String.length p2 ->
  p1 +:+ s1 = p2 +:+ s2 -> p1 = p2 /\ s1 = s2.
Proof.
  revert p2. induction p1 as [|c p1 IH]; intros [|c' p2] Hlen H;
    try discriminate Hlen; simpl in *.
  - auto.
  - injection H as -> H. injection Hlen as Hlen.
    destruct (IH p2 Hlen H) as [-> ->]. auto.
Qed.

Lemma index_after_digits (p s : string) :
  forallb is_lower_hex_digit (list_ascii_of_string p) = true ->
  String.index 0 ":" (p +:+ ":" +:+ s) = Some (String.length p).
Proof.
  induction p as [|c p IH]; cbn [list_ascii_of_string forallb].
  - intros _. simpl. destruct (ascii_dec ":" ":"); [|congruence].
    destruct s; reflexivity.
  - rewrite andb_true_iff. intros [Hc Hp].
    change (String c p +:+ ":" +:+ s) with (String c (p +:+ ":" +:+ s)).
    cbn [String.index String.prefix String.length].
    destruct (ascii_dec ":" c) as [<-|_]; [discriminate Hc|].
    rewrite (IH Hp). reflexivity.
Qed.

(** X15: the credential text is unambiguous.  Its first colon stands
    right after the 24 digits of the user id, whatever the token
    contains, and two credentials are equal only when both the user ids
    and the tokens are. *)
Theorem credential_unambiguous (user_id user_id' : oid) (token token' : string) :
  String.index 0 ":" (credential user_id token) = Some 24
  /\ (credential user_id token = credential user_id' token' ->
      user_id = user_id' /\ token = token').
Proof.
  unfold credential. split.
  - rewrite index_after_digits, str_oid_length; [reflexivity|].
    apply (proj2 (hex_digits _)).
  - intros H. apply append_same_length in H as [Hid Htok].
    + split; [apply str_oid_inj; exact Hid | exact (append_inv_head ":" _ _ Htok)].
    + rewrite !str_oid_length. reflexivity.
Qed.

(** ** A first connection that fails *)

(** X16: when the very first [MongoHandler(uri)] fails in
    [MongoClient], the instance has already been recorded: the client
    and the database stay unset, yet every later call returns that
    instance without calling [MongoClient] again, whatever uri it is
    given. *)
Theorem failed_first_connection_sticks
    (client : Type) (MongoClient : string -> result client)
    (uri : string) (e : exn) (p : Handle.process client) :
  Handle.cls_instance client p = None ->
  MongoClient uri = Raise e ->
  exists (p1 : Handle.process client) (h : nat),
    Handle.__new__ client MongoClient uri p = (Raise e, p1)
    /\ Handle.cls_client client p1 = Handle.cls_client client p
    /\ Handle.cls_db client p1 = Handle.cls_db client p
    /\ forall later, Handle.__new__ client MongoClient later p1 = (Ok h, p1).
Proof.
  intros Hnone Hfail. unfold Handle.__new__ at 1. rewrite Hnone, Hfail.
  eexists _, (Handle.next_object client p). split; [reflexivity|].
  split; [reflexivity|]. split; [reflexivity|].
  intros later. apply new_returns_instance. reflexivity.
Qed.

(** X16 at a refused uri followed by a good one. *)
Lemma failed_first_connection_sticks_witness :
  exists (p1 : Handle.process string) (h : nat),
    Handle.__new__ string Sample.strict_MongoClient "" (Handle.start string)
    = (Raise BareException, p1)
    /\ Handle.cls_db string p1 = None
    /\ Handle.__new__ string Sample.strict_MongoClient "mongodb://localhost" p1 = (Ok h, p1).
Proof.
  destruct (failed_first_connection_sticks string Sample.strict_MongoClient ""
              BareException (Handle.start string) eq_refl eq_refl)
    as (p1 & h & Hfirst & _ & Hdb & Hlater).
  exists p1, h. split; [exact Hfirst|]. split; [exact Hdb | apply Hlater].
Defined.
